(** * Verdict policy engine of the sentinel agent ([src/app/page.tsx])

    The decision engine [calculateVerdict] turns a six-dimension risk
    assessment into one of five governance verdicts.  TypeScript's [number]
    is an IEEE 754 binary64 value, so the embedding computes with Rocq's
    primitive floats: same format, same rounding (to nearest, ties to even),
    and decimal literals are read to the nearest binary64 value exactly as a
    JavaScript parser reads them. *)

From Stdlib Require Import Floats List String Bool ZArith.
Import ListNotations.

Set Warnings "-inexact-float".
Local Open Scope string_scope.
Local Open Scope float_scope.

(** ** Data model (the interfaces of [page.tsx], lines 35-65) *)

Record RiskScores : Set := mkRiskScores {
  irreversibility : float;
  external_impact : float;
  financial : float;
  safety : float;
  missing_context : float;
  policy_violation : float
}.

Inductive VerdictType : Set :=
| APPROVE
| APPROVE_WITH_NOTICE
| ASK_FOR_CLARIFICATION
| MODIFY
| BLOCK.

Record Verdict : Set := mkVerdict {
  type : VerdictType;
  confidence : float;
  weightedScore : float;
  triggeredRules : list string
}.

(** ** JavaScript number primitives used by the engine *)

Module JS.

(** [a >= b] on numbers: false as soon as one side is NaN. *)
Definition ge (a b : float) : bool := b <=? a.

Definition is_neg_zero (x : float) : bool := is_zero x && get_sign x.
Definition is_pos_zero (x : float) : bool := is_zero x && negb (get_sign x).

(** [Math.min(a, b)]: NaN if either argument is NaN, and -0 is smaller
    than +0. *)
Definition Math_min (a b : float) : float :=
  if is_nan a || is_nan b then nan
  else if a <? b then a
  else if b <? a then b
  else if is_neg_zero a then a else b.

(** [Math.max(a, b)]: NaN if either argument is NaN, and +0 is larger
    than -0. *)
Definition Math_max (a b : float) : float :=
  if is_nan a || is_nan b then nan
  else if b <? a then a
  else if a <? b then b
  else if is_pos_zero a then a else b.

(** [arr.push(x)] on an array held in a local variable. *)
Definition push (arr : list string) (x : string) : list string := arr ++ [x].

End JS.

Infix ">=?" := JS.ge (at level 70, no associativity) : float_scope.

(** ** The decision engine (lines 84-153) *)

Definition calculateVerdict (scores : RiskScores) : Verdict :=
  let triggeredRules : list string := [] in
  (* Hard overrides first *)
  if scores.(safety) >=? 3 then
    let triggeredRules := JS.push triggeredRules "CRITICAL: Safety score ≥ 3" in
    {| type := BLOCK; confidence := 100; weightedScore := 0;
       triggeredRules := triggeredRules |}
  else if (scores.(irreversibility) >=? 3) && (scores.(external_impact) >=? 2) then
    let triggeredRules :=
      JS.push triggeredRules
        "CRITICAL: Irreversibility ≥ 3 AND External Impact ≥ 2" in
    {| type := BLOCK; confidence := 100; weightedScore := 0;
       triggeredRules := triggeredRules |}
  else if scores.(policy_violation) >=? 3 then
    let triggeredRules := JS.push triggeredRules "CRITICAL: Policy Violation ≥ 3" in
    {| type := BLOCK; confidence := 100; weightedScore := 0;
       triggeredRules := triggeredRules |}
  else
    (* Weighted scoring *)
    let weightedScore :=
      scores.(irreversibility) * 0.25 +
      scores.(external_impact) * 0.25 +
      scores.(financial) * 0.15 +
      scores.(safety) * 0.2 +
      scores.(missing_context) * 0.1 +
      scores.(policy_violation) * 0.05 in
    (* Confidence: inverse of the weighted score, as a percentage *)
    let confidence :=
      JS.Math_max 0 (JS.Math_min 100 (100 - (weightedScore / 3) * 100)) in
    (* Thresholds *)
    if weightedScore <? 1.0 then
      let triggeredRules := JS.push triggeredRules "Weighted score < 1.0" in
      mkVerdict APPROVE confidence weightedScore triggeredRules
    else if weightedScore <? 1.5 then
      let triggeredRules := JS.push triggeredRules "Weighted score < 1.5" in
      mkVerdict APPROVE_WITH_NOTICE confidence weightedScore triggeredRules
    else if scores.(missing_context) >=? 2 then
      let triggeredRules := JS.push triggeredRules "Missing Context ≥ 2" in
      mkVerdict ASK_FOR_CLARIFICATION confidence weightedScore triggeredRules
    else if weightedScore <? 2.0 then
      let triggeredRules := JS.push triggeredRules "Weighted score < 2.0" in
      mkVerdict MODIFY confidence weightedScore triggeredRules
    else
      let triggeredRules := JS.push triggeredRules "Weighted score ≥ 2.0" in
      mkVerdict BLOCK confidence weightedScore triggeredRules.

(** ** The second document of the file (lines 915-984)

    [page.tsx] holds two concatenated documents; the second one declares the
    same interfaces and its own [calculateVerdict]. *)

Module SecondDocument.

Definition calculateVerdict (scores : RiskScores) : Verdict :=
  let triggeredRules : list string := [] in
  (* Hard overrides first *)
  if scores.(safety) >=? 3 then
    let triggeredRules := JS.push triggeredRules "CRITICAL: Safety score ≥ 3" in
    {| type := BLOCK; confidence := 100; weightedScore := 0;
       triggeredRules := triggeredRules |}
  else if (scores.(irreversibility) >=? 3) && (scores.(external_impact) >=? 2) then
    let triggeredRules :=
      JS.push triggeredRules
        "CRITICAL: Irreversibility ≥ 3 AND External Impact ≥ 2" in
    {| type := BLOCK; confidence := 100; weightedScore := 0;
       triggeredRules := triggeredRules |}
  else if scores.(policy_violation) >=? 3 then
    let triggeredRules := JS.push triggeredRules "CRITICAL: Policy Violation ≥ 3" in
    {| type := BLOCK; confidence := 100; weightedScore := 0;
       triggeredRules := triggeredRules |}
  else
    (* Weighted scoring *)
    let weightedScore :=
      scores.(irreversibility) * 0.25 +
      scores.(external_impact) * 0.25 +
      scores.(financial) * 0.15 +
      scores.(safety) * 0.2 +
      scores.(missing_context) * 0.1 +
      scores.(policy_violation) * 0.05 in
    (* Confidence: inverse of the weighted score, as a percentage *)
    let confidence :=
      JS.Math_max 0 (JS.Math_min 100 (100 - (weightedScore / 3) * 100)) in
    (* Thresholds *)
    if weightedScore <? 1.0 then
      let triggeredRules := JS.push triggeredRules "Weighted score < 1.0" in
      mkVerdict APPROVE confidence weightedScore triggeredRules
    else if weightedScore <? 1.5 then
      let triggeredRules := JS.push triggeredRules "Weighted score < 1.5" in
      mkVerdict APPROVE_WITH_NOTICE confidence weightedScore triggeredRules
    else if scores.(missing_context) >=? 2 then
      let triggeredRules := JS.push triggeredRules "Missing Context ≥ 2" in
      mkVerdict ASK_FOR_CLARIFICATION confidence weightedScore triggeredRules
    else if weightedScore <? 2.0 then
      let triggeredRules := JS.push triggeredRules "Weighted score < 2.0" in
      mkVerdict MODIFY confidence weightedScore triggeredRules
    else
      let triggeredRules := JS.push triggeredRules "Weighted score ≥ 2.0" in
      mkVerdict BLOCK confidence weightedScore triggeredRules.

End SecondDocument.

(** ** Vocabulary of the specification *)

(** The three hard overrides, as the engine tests them. *)
Definition safety_override (s : RiskScores) : bool := s.(safety) >=? 3.

Definition irreversibility_override (s : RiskScores) : bool :=
  (s.(irreversibility) >=? 3) && (s.(external_impact) >=? 2).

Definition policy_override (s : RiskScores) : bool := s.(policy_violation) >=? 3.

Definition override_fires (s : RiskScores) : bool :=
  safety_override s || irreversibility_override s || policy_override s.

(** The weighted sum as the specification writes it (section 4.1, step 2). *)
Definition spec_weightedScore (s : RiskScores) : float :=
  s.(irreversibility) * 0.25 + s.(external_impact) * 0.25 + s.(financial) * 0.15
  + s.(safety) * 0.20 + s.(missing_context) * 0.10 + s.(policy_violation) * 0.05.

(** [clamp x lo hi] of the specification (section 4.1, step 3). *)
Definition clamp (x lo hi : float) : float :=
  if x <? lo then lo else if hi <? x then hi else x.

Definition spec_confidence (w : float) : float :=
  clamp (100 - (w / 3) * 100) 0 100.

(** The ordered rule list of the specification (section 4.1 and the design
    notes): a predicate and the message of the rule, first match wins. *)
Definition rule : Set := ((RiskScores -> bool) * string)%type.

Definition rule_table : list rule :=
  [ (safety_override, "CRITICAL: Safety score ≥ 3");
    (irreversibility_override,
      "CRITICAL: Irreversibility ≥ 3 AND External Impact ≥ 2");
    (policy_override, "CRITICAL: Policy Violation ≥ 3");
    (fun s => spec_weightedScore s <? 1.0, "Weighted score < 1.0");
    (fun s => spec_weightedScore s <? 1.5, "Weighted score < 1.5");
    (fun s => s.(missing_context) >=? 2, "Missing Context ≥ 2");
    (fun s => spec_weightedScore s <? 2.0, "Weighted score < 2.0");
    (fun _ => true, "Weighted score ≥ 2.0") ].

Definition first_match (s : RiskScores) : option string :=
  option_map snd (find (fun r : rule => fst r s) rule_table).

(** Well-formed scores: every dimension is one of the integers 0, 1, 2, 3. *)
Definition dimension_values : list float := [0; 1; 2; 3].

Definition is_dimension (x : float) : Prop := In x dimension_values.

Definition well_formed (s : RiskScores) : Prop :=
  is_dimension s.(irreversibility) /\ is_dimension s.(external_impact) /\
  is_dimension s.(financial) /\ is_dimension s.(safety) /\
  is_dimension s.(missing_context) /\ is_dimension s.(policy_violation).

(** The 4096 well-formed score records, for exhaustive checks. *)
Definition all_well_formed : list RiskScores :=
  flat_map (fun irr =>
  flat_map (fun ext =>
  flat_map (fun fin =>
  flat_map (fun saf =>
  flat_map (fun mis =>
  map (fun pol => mkRiskScores irr ext fin saf mis pol) dimension_values)
    dimension_values) dimension_values) dimension_values) dimension_values)
    dimension_values.

(** Scores named by the specification or used as concrete inputs below. *)
Definition scenario_missing_context : RiskScores := mkRiskScores 1 1 1 0 3 0.
Definition scores_highest_weighted : RiskScores := mkRiskScores 2 3 3 2 3 2.
Definition scores_out_of_range : RiskScores := mkRiskScores 2 5 5 2 5 2.

(** The largest weighted score the engine returns on well-formed input:
    the binary64 value just above 2.5. *)
Definition weightedScore_bound : float := Eval vm_compute in next_up 2.5.

(** The confidence the engine returns at that score. *)
Definition confidence_floor : float :=
  Eval vm_compute in 100 - (weightedScore_bound / 3) * 100.

(** ** Decidable checks, run over the 4096 well-formed records *)

Definition VerdictType_eqb (a b : VerdictType) : bool :=
  match a, b with
  | APPROVE, APPROVE
  | APPROVE_WITH_NOTICE, APPROVE_WITH_NOTICE
  | ASK_FOR_CLARIFICATION, ASK_FOR_CLARIFICATION
  | MODIFY, MODIFY
  | BLOCK, BLOCK => true
  | _, _ => false
  end.

(** The threshold ladder read as intervals of the returned weighted score,
    and the fact that the five intervals leave no gap. *)
Definition ladder_check (s : RiskScores) : bool :=
  let v := calculateVerdict s in
  let w := weightedScore v in
  let m := missing_context s in
  implb (negb (override_fires s))
    (implb (w <? 1.0) (VerdictType_eqb (type v) APPROVE)
     && implb ((w >=? 1.0) && (w <? 1.5))
          (VerdictType_eqb (type v) APPROVE_WITH_NOTICE)
     && implb ((w >=? 1.5) && (m >=? 2))
          (VerdictType_eqb (type v) ASK_FOR_CLARIFICATION)
     && implb ((w >=? 1.5) && negb (m >=? 2) && (w <? 2.0))
          (VerdictType_eqb (type v) MODIFY)
     && implb ((w >=? 2.0) && negb (m >=? 2))
          (VerdictType_eqb (type v) BLOCK)
     && ((w <? 1.0)
         || (w >=? 1.0) && (w <? 1.5)
         || (w >=? 1.5) && (m >=? 2)
         || (w >=? 1.5) && negb (m >=? 2) && (w <? 2.0)
         || (w >=? 2.0) && negb (m >=? 2))).

(** The engine's confidence against the specification's clamp. *)
Definition confidence_check (s : RiskScores) : bool :=
  let v := calculateVerdict s in
  implb (negb (override_fires s))
    (Leibniz.eqb (confidence v) (spec_confidence (weightedScore v))
     && (0 <=? confidence v) && (confidence v <=? 100)).

(** The bounds the engine meets when no override fires. *)
Definition bound_check (s : RiskScores) : bool :=
  let v := calculateVerdict s in
  let w := weightedScore v in
  implb (negb (override_fires s))
    ((w <=? weightedScore_bound)
     && (confidence_floor <=? confidence v)
     && (0 <? 100 - (w / 3) * 100)
     && Leibniz.eqb (confidence v) (100 - (w / 3) * 100)).

(** Two binary64 numbers that compare as different are different. *)
Ltac float_neq :=
  let H := fresh "H" in
  intro H;
  match type of H with
  | ?a = ?b => apply (f_equal (fun x : float => x =? b)) in H
  end;
  vm_compute in H; discriminate H.

(** ** Further vocabulary for the engine *)

(** Some dimension of the record is NaN. *)
Definition has_nan (s : RiskScores) : bool :=
  is_nan s.(irreversibility) || is_nan s.(external_impact)
  || is_nan s.(financial) || is_nan s.(safety)
  || is_nan s.(missing_context) || is_nan s.(policy_violation).

(** The record [s] with its [missing_context] replaced. *)
Definition with_missing_context (s : RiskScores) (m : float) : RiskScores :=
  mkRiskScores s.(irreversibility) s.(external_impact) s.(financial)
    s.(safety) m s.(policy_violation).

(** [dominates hi lo]: no dimension of [lo] exceeds that of [hi]. *)
Definition dominates (hi lo : RiskScores) : bool :=
  (lo.(irreversibility) <=? hi.(irreversibility))
  && (lo.(external_impact) <=? hi.(external_impact))
  && (lo.(financial) <=? hi.(financial))
  && (lo.(safety) <=? hi.(safety))
  && (lo.(missing_context) <=? hi.(missing_context))
  && (lo.(policy_violation) <=? hi.(policy_violation)).

(** [strictly_dominates hi lo]: moreover some dimension of [hi] is larger. *)
Definition strictly_dominates (hi lo : RiskScores) : bool :=
  dominates hi lo
  && ((lo.(irreversibility) <? hi.(irreversibility))
      || (lo.(external_impact) <? hi.(external_impact))
      || (lo.(financial) <? hi.(financial))
      || (lo.(safety) <? hi.(safety))
      || (lo.(missing_context) <? hi.(missing_context))
      || (lo.(policy_violation) <? hi.(policy_violation))).

(** Raising dimensions keeps overrides, raises the score and lowers the
    confidence: the check for one upper record against every lower one. *)
Definition monotone_check (hi : RiskScores) : bool :=
  if override_fires hi then true
  else
    let vhi := calculateVerdict hi in
    forallb (fun lo =>
      if dominates hi lo then
        let vlo := calculateVerdict lo in
        negb (override_fires lo)
        && (weightedScore vlo <=? weightedScore vhi)
        && (confidence vhi <=? confidence vlo)
        && implb (strictly_dominates hi lo)
             ((weightedScore vlo <? weightedScore vhi)
              && (confidence vhi <? confidence vlo))
      else true)
      all_well_formed.

(** A MODIFY or BLOCK of the ladder turns into ASK_FOR_CLARIFICATION once
    [missing_context] is 2 or 3. *)
Definition softening_check (s : RiskScores) : bool :=
  let v := calculateVerdict s in
  implb (negb (override_fires s)
         && (VerdictType_eqb (type v) MODIFY || VerdictType_eqb (type v) BLOCK))
    (forallb (fun m =>
       implb (m >=? 2)
         (VerdictType_eqb (type (calculateVerdict (with_missing_context s m)))
            ASK_FOR_CLARIFICATION))
       dimension_values).

(** The confidence band of each verdict of the ladder. *)
Definition band_check (s : RiskScores) : bool :=
  let v := calculateVerdict s in
  let c := confidence v in
  implb (negb (override_fires s))
    (match type v with
     | APPROVE => (66.66 <? c) && (c <=? 100)
     | APPROVE_WITH_NOTICE => (50 <? c) && (c <? 66.67)
     | ASK_FOR_CLARIFICATION => (16.66 <? c) && (c <=? 50)
     | MODIFY => (33.34 <? c) && (c <=? 50)
     | BLOCK => (16.66 <? c) && (c <? 33.34)
     end).

(** One well-formed record for each entry of [rule_table], in its order. *)
Definition rule_examples : list RiskScores :=
  [ mkRiskScores 0 0 0 3 0 0;
    mkRiskScores 3 2 0 0 0 0;
    mkRiskScores 0 0 0 0 0 3;
    mkRiskScores 0 0 0 0 0 0;
    mkRiskScores 0 0 3 2 1 1;
    mkRiskScores 2 3 3 2 3 2;
    mkRiskScores 2 2 2 1 0 0;
    mkRiskScores 1 3 3 2 1 1 ].

(** ** Presentation helpers of the first document (lines 223-370) *)

Definition getVerdictColor (t : VerdictType) : string :=
  match t with
  | APPROVE => "text-emerald-400"
  | APPROVE_WITH_NOTICE => "text-green-400"
  | ASK_FOR_CLARIFICATION => "text-amber-400"
  | MODIFY => "text-orange-400"
  | BLOCK => "text-red-400"
  end.


Definition getVerdictBg (t : VerdictType) : string :=
  match t with
  | APPROVE => "bg-gradient-to-br from-emerald-500/20 to-emerald-600/10"
  | APPROVE_WITH_NOTICE => "bg-gradient-to-br from-green-500/20 to-green-600/10"
  | ASK_FOR_CLARIFICATION => "bg-gradient-to-br from-amber-500/20 to-amber-600/10"
  | MODIFY => "bg-gradient-to-br from-orange-500/20 to-orange-600/10"
  | BLOCK => "bg-gradient-to-br from-red-500/20 to-red-600/10"
  end.




(** [score === k] on numbers is the IEEE equality [=?]. *)
Definition getRiskColor (score : float) : string :=
  if score =? 0 then "text-gray-400"
  else if score =? 1 then "text-blue-400"
  else if score =? 2 then "text-amber-400"
  else "text-red-400".

Definition getRiskBg (score : float) : string :=
  if score =? 0 then "bg-gray-500/20"
  else if score =? 1 then "bg-blue-500/20"
  else if score =? 2 then "bg-amber-500/20"
  else "bg-red-500/20".

Definition getRiskGradient (score : float) : string :=
  if score =? 0 then "from-gray-500/20 to-gray-600/10"
  else if score =? 1 then "from-blue-500/20 to-blue-600/10"
  else if score =? 2 then "from-amber-500/20 to-amber-600/10"
  else "from-red-500/20 to-red-600/10".


Definition getDimensionIcon (dimension : string) : string :=
  if (dimension =? "irreversibility")%string then "↻"
  else if (dimension =? "external_impact")%string then "⚡"
  else if (dimension =? "financial")%string then "$"
  else if (dimension =? "safety")%string then "⚠"
  else if (dimension =? "missing_context")%string then "?"
  else if (dimension =? "policy_violation")%string then "⚖"
  else "•".

(** The keys that [Object.entries(sentinelResult.risk_scores)] walks through
    (lines 680 and 751), in the order of the interface. *)
Definition risk_score_keys : list string :=
  [ "irreversibility"; "external_impact"; "financial"; "safety";
    "missing_context"; "policy_violation" ].

(** The shadow of a lit segment of the risk bar (lines 703-706). *)
Definition segmentShadow (score : float) : string :=
  if score =? 3 then "shadow-red-500/50"
  else if score =? 2 then "shadow-amber-500/50"
  else if score =? 1 then "shadow-blue-500/50"
  else "shadow-gray-500/50".

(** The [className] of the segment [level] of the risk bar of a dimension
    scored [score] (lines 697-712). *)
Definition segmentClass (level score : float) : string :=
  "h-2 flex-1 rounded-full transition-all duration-500 "
  ++ (if level <=? score
      then getRiskBg score ++ " shadow-lg " ++ segmentShadow score
      else "bg-gray-700/30").

(** The colour families of the risk palette. *)
Inductive RiskFamily : Set := Gray | Blue | Amber | Red.

Definition family_name (f : RiskFamily) : string :=
  match f with
  | Gray => "gray" | Blue => "blue" | Amber => "amber" | Red => "red"
  end.

(** The family of a score: red unless the score is 0, 1 or 2. *)
Definition risk_family (score : float) : RiskFamily :=
  if score =? 0 then Gray
  else if score =? 1 then Blue
  else if score =? 2 then Amber
  else Red.

(** ** Presentation helpers of the second document (lines 1053-1143) *)

Module SecondDocumentView.

Definition getVerdictColor (t : VerdictType) : string :=
  match t with
  | APPROVE => "text-emerald-500 border-emerald-500"
  | APPROVE_WITH_NOTICE => "text-green-400 border-green-400"
  | ASK_FOR_CLARIFICATION => "text-amber-400 border-amber-400"
  | MODIFY => "text-orange-500 border-orange-500"
  | BLOCK => "text-red-500 border-red-500"
  end.

Definition getVerdictBg (t : VerdictType) : string :=
  match t with
  | APPROVE => "bg-emerald-500/10"
  | APPROVE_WITH_NOTICE => "bg-green-400/10"
  | ASK_FOR_CLARIFICATION => "bg-amber-400/10"
  | MODIFY => "bg-orange-500/10"
  | BLOCK => "bg-red-500/10"
  end.

Definition getRiskColor (score : float) : string :=
  if score =? 0 then "text-gray-400"
  else if score =? 1 then "text-blue-400"
  else if score =? 2 then "text-amber-400"
  else "text-red-500".

Definition getRiskBg (score : float) : string :=
  if score =? 0 then "bg-gray-500/20"
  else if score =? 1 then "bg-blue-500/20"
  else if score =? 2 then "bg-amber-500/20"
  else "bg-red-500/20".

End SecondDocumentView.

(** ** JavaScript string primitives used by the page *)

Module JSString.

(** [s.replace(pat, rep)] with a string pattern: the first occurrence only.
    The replacements of the page hold no [$], so none is special. *)
Fixpoint replace (pat rep s : string) : string :=
  if prefix pat s then
    rep ++ substring (String.length pat) (String.length s - String.length pat) s
  else
    match s with
    | EmptyString => EmptyString
    | String c rest => String c (replace pat rep rest)
    end.

(** User text is kept as its UTF-16 code units, on which [trim] is defined. *)
Definition text : Set := list N.

(** WhiteSpace and LineTerminator of ECMAScript: TAB, LF, VT, FF, CR, SP,
    NBSP, U+1680, U+2000 to U+200A, U+2028, U+2029, U+202F, U+205F, U+3000
    and U+FEFF. *)
Definition is_whitespace (c : N) : bool :=
  existsb (N.eqb c)
    [0x9; 0xA; 0xB; 0xC; 0xD; 0x20; 0xA0; 0x1680; 0x2028; 0x2029; 0x202F;
     0x205F; 0x3000; 0xFEFF]%N
  || ((0x2000 <=? c) && (c <=? 0x200A))%N.

Fixpoint trimStart (s : text) : text :=
  match s with
  | c :: rest => if is_whitespace c then trimStart rest else s
  | [] => []
  end.

Definition trimEnd (s : text) : text := rev (trimStart (rev s)).

Definition trim (s : text) : text := trimEnd (trimStart s).

(** Truthiness of a string: the empty string is falsy. *)
Definition truthy (s : text) : bool :=
  match s with [] => false | _ :: _ => true end.

(** [m || d] where [m] is a string or [undefined]. *)
Definition or_default (m : option string) (d : string) : string :=
  match m with
  | Some EmptyString | None => d
  | Some s => s
  end.

End JSString.

(** ** The page state and its handlers (first document, lines 22-56, 72-81
    and 155-220) *)

Record PlanStep : Set := mkPlanStep {
  step_number : float;
  action : string;
  action_tag : string;
  concerns : list string
}.

Record WorkerPlan : Set := mkWorkerPlan {
  steps : list PlanStep;
  resources_needed : list string;
  external_systems : list string
}.

Record RiskExplanations : Set := mkRiskExplanations {
  explain_irreversibility : string;
  explain_external_impact : string;
  explain_financial : string;
  explain_safety : string;
  explain_missing_context : string;
  explain_policy_violation : string
}.

(** What the page keeps as [sentinelResult].  The cast [as SentinelResult]
    (line 194) checks nothing, so at run time either part can be missing
    ([undefined] or [null]). *)
Record SentinelResult : Set := mkSentinelResult {
  risk_scores : option RiskScores;
  risk_explanations : option RiskExplanations
}.

(** [currentStep : 1 | 2 | 3]. *)
Inductive Step : Set := Step1 | Step2 | Step3.

(** The [useState] cells of [Home]. *)
Record HomeState : Set := mkHomeState {
  currentStep : Step;
  taskInput : JSString.text;
  workerPlan : option WorkerPlan;
  sentinelResult : option SentinelResult;
  verdict : option Verdict;
  loadingWorker : bool;
  loadingSentinel : bool;
  error : option string;
  showExplanations : bool
}.

(** The initial values given to [useState]. *)
Definition initialState : HomeState :=
  mkHomeState Step1 [] None None None false false None false.

(** The state setters. *)
Definition setCurrentStep (v : Step) (st : HomeState) : HomeState :=
  mkHomeState v st.(taskInput) st.(workerPlan) st.(sentinelResult)
    st.(verdict) st.(loadingWorker) st.(loadingSentinel) st.(error)
    st.(showExplanations).

Definition setTaskInput (v : JSString.text) (st : HomeState) : HomeState :=
  mkHomeState st.(currentStep) v st.(workerPlan) st.(sentinelResult)
    st.(verdict) st.(loadingWorker) st.(loadingSentinel) st.(error)
    st.(showExplanations).

Definition setWorkerPlan (v : option WorkerPlan) (st : HomeState) : HomeState :=
  mkHomeState st.(currentStep) st.(taskInput) v st.(sentinelResult)
    st.(verdict) st.(loadingWorker) st.(loadingSentinel) st.(error)
    st.(showExplanations).

Definition setSentinelResult (v : option SentinelResult) (st : HomeState)
  : HomeState :=
  mkHomeState st.(currentStep) st.(taskInput) st.(workerPlan) v
    st.(verdict) st.(loadingWorker) st.(loadingSentinel) st.(error)
    st.(showExplanations).

Definition setVerdict (v : option Verdict) (st : HomeState) : HomeState :=
  mkHomeState st.(currentStep) st.(taskInput) st.(workerPlan)
    st.(sentinelResult) v st.(loadingWorker) st.(loadingSentinel) st.(error)
    st.(showExplanations).

Definition setLoadingWorker (v : bool) (st : HomeState) : HomeState :=
  mkHomeState st.(currentStep) st.(taskInput) st.(workerPlan)
    st.(sentinelResult) st.(verdict) v st.(loadingSentinel) st.(error)
    st.(showExplanations).

Definition setLoadingSentinel (v : bool) (st : HomeState) : HomeState :=
  mkHomeState st.(currentStep) st.(taskInput) st.(workerPlan)
    st.(sentinelResult) st.(verdict) st.(loadingWorker) v st.(error)
    st.(showExplanations).

Definition setError (v : option string) (st : HomeState) : HomeState :=
  mkHomeState st.(currentStep) st.(taskInput) st.(workerPlan)
    st.(sentinelResult) st.(verdict) st.(loadingWorker) st.(loadingSentinel)
    v st.(showExplanations).

Definition setShowExplanations (v : bool) (st : HomeState) : HomeState :=
  mkHomeState st.(currentStep) st.(taskInput) st.(workerPlan)
    st.(sentinelResult) st.(verdict) st.(loadingWorker) st.(loadingSentinel)
    st.(error) v.

(** Statements in sequence: [st |> f |> g] runs [f], then [g]. *)
Notation "st |> f" := (f st) (at level 45, left associativity, only parsing).

(** [callAIAgent] comes from [@/lib/aiAgent], which is not part of this
    file.  What it resolves to is an input of the handlers, of the shape they
    read: [result.success], [result.response.status],
    [result.response.result] and [result.response.message]. *)
Record AgentResponse (R : Set) : Set := mkAgentResponse {
  status : string;
  result : option R;
  message : option string
}.

Record AgentResult (R : Set) : Set := mkAgentResult {
  success : bool;
  response : AgentResponse R
}.

Arguments mkAgentResponse {R}.
Arguments status {R}.
Arguments result {R}.
Arguments message {R}.
Arguments mkAgentResult {R}.
Arguments success {R}.
Arguments response {R}.

(** How the awaited promise settles.  [Rejected] also stands for a value from
    which [success] or [response] cannot be read: reading it throws before
    any setter is called, and the [catch] block runs as for a rejection. *)
Inductive Settled (R : Set) : Set :=
| Fulfilled (r : AgentResult R)
| Rejected.

Arguments Fulfilled {R}.
Arguments Rejected {R}.

(** [result.response.result] of the worker agent.  The cast [as WorkerPlan]
    (line 169) checks nothing: [plan] can be missing. *)
Record WorkerResult : Set := mkWorkerResult { plan : option WorkerPlan }.

(** [result.success && result.response.status === 'success']. *)
Definition succeeded {R : Set} (r : AgentResult R) : bool :=
  r.(success) && (r.(response).(status) =? "success")%string.

(** The settled promise did not bring a success. *)
Definition failed {R : Set} (o : Settled R) : Prop :=
  match o with
  | Fulfilled r => succeeded r = false
  | Rejected => True
  end.

(** [analyzeTask] up to its [await]: the new state, and whether
    [callAIAgent] is called. *)
Definition analyzeTask_begin (st : HomeState) : HomeState * bool :=
  if negb (JSString.truthy (JSString.trim st.(taskInput))) then
    (st |> setError (Some "Please enter a task description"), false)
  else
    (st |> setLoadingWorker true |> setError None, true).

(** [analyzeTask] from the settled promise on: [try], [catch], [finally]. *)
Definition analyzeTask_settle (o : Settled WorkerResult) (st : HomeState)
  : HomeState :=
  (match o with
   | Fulfilled r =>
       if succeeded r then
         match r.(response).(result) with
         | Some data =>
             let plan := data.(plan) in
             st |> setWorkerPlan plan |> setCurrentStep Step2
         | None =>
             (* [result.response.result.plan] throws: the catch block *)
             st |> setError (Some "Network error occurred")
         end
       else
         st |> setError
                 (Some (JSString.or_default r.(response).(message)
                          "Failed to generate plan"))
   | Rejected => st |> setError (Some "Network error occurred")
   end)
  |> setLoadingWorker false.

(** [evaluatePlan] up to its [await]: the new state, and the plan sent to
    the sentinel agent when there is one. *)
Definition evaluatePlan_begin (st : HomeState) : HomeState * option WorkerPlan :=
  match st.(workerPlan) with
  | None => (st, None)
  | Some p => (st |> setLoadingSentinel true |> setError None, Some p)
  end.

(** [evaluatePlan] from the settled promise on. *)
Definition evaluatePlan_settle (o : Settled SentinelResult) (st : HomeState)
  : HomeState :=
  (match o with
   | Fulfilled r =>
       if succeeded r then
         let sentinelData := r.(response).(result) in
         let st := st |> setSentinelResult sentinelData in
         (* Calculate verdict using Decision Engine *)
         match sentinelData with
         | Some data =>
             match data.(risk_scores) with
             | Some scores =>
                 let calculatedVerdict := calculateVerdict scores in
                 st |> setVerdict (Some calculatedVerdict)
                    |> setCurrentStep Step3
             | None =>
                 (* [calculateVerdict(undefined)] throws at [scores.safety]
                    (line 88): the catch block, after the setter above *)
                 st |> setError (Some "Network error occurred")
             end
         | None =>
             (* [sentinelData.risk_scores] throws: the catch block, after
                the setter above *)
             st |> setError (Some "Network error occurred")
         end
       else
         st |> setError
                 (Some (JSString.or_default r.(response).(message)
                          "Failed to evaluate plan"))
   | Rejected => st |> setError (Some "Network error occurred")
   end)
  |> setLoadingSentinel false.

Definition handleReset (st : HomeState) : HomeState :=
  st |> setCurrentStep Step1
     |> setTaskInput []
     |> setWorkerPlan None
     |> setSentinelResult None
     |> setVerdict None
     |> setError None
     |> setShowExplanations false.

(** What can happen to the page: the input changes (line 461), a handler
    runs to its [await], an awaited call settles, Reset is clicked, the
    explanations are toggled (line 740). *)
Inductive Event : Set :=
| InputChanged (v : JSString.text)
| AnalyzeClicked
| AnalyzeSettled (o : Settled WorkerResult)
| EvaluateClicked
| EvaluateSettled (o : Settled SentinelResult)
| ResetClicked
| ExplanationsToggled.

Definition step (st : HomeState) (e : Event) : HomeState :=
  match e with
  | InputChanged v => st |> setTaskInput v
  | AnalyzeClicked => fst (analyzeTask_begin st)
  | AnalyzeSettled o => analyzeTask_settle o st
  | EvaluateClicked => fst (evaluatePlan_begin st)
  | EvaluateSettled o => evaluatePlan_settle o st
  | ResetClicked => handleReset st
  | ExplanationsToggled => st |> setShowExplanations (negb st.(showExplanations))
  end.

Definition run (es : list Event) : HomeState := fold_left step es initialState.

(** The verdict on the page is the engine's verdict on the scores on the
    page: both are there or neither is. *)
Definition verdict_matches_scores (st : HomeState) : Prop :=
  match st.(verdict), st.(sentinelResult) with
  | Some v, Some d =>
      match d.(risk_scores) with
      | Some scores => v = calculateVerdict scores
      | None => False
      end
  | None, None => True
  | _, _ => False
  end.

(** A settled call is well typed when a success carries what the casts
    promise: a plan from the worker agent, scores from the sentinel agent. *)
Definition well_typed (e : Event) : Prop :=
  match e with
  | AnalyzeSettled (Fulfilled r) =>
      succeeded r = true ->
      exists data p, r.(response).(result) = Some data /\ data.(plan) = Some p
  | EvaluateSettled (Fulfilled r) =>
      succeeded r = true ->
      exists data scores,
        r.(response).(result) = Some data /\ data.(risk_scores) = Some scores
  | _ => True
  end.

(** A success of the worker agent that carries no plan, and a success of the
    sentinel agent that carries no scores. *)
Definition success_without_plan : Settled WorkerResult :=
  Fulfilled (mkAgentResult true
               (mkAgentResponse "success" (Some (mkWorkerResult None)) None)).

Definition success_without_scores : Settled SentinelResult :=
  Fulfilled (mkAgentResult true
               (mkAgentResponse "success"
                  (Some (mkSentinelResult None None)) None)).

(** The buttons of panels 1 and 2 (lines 473 and 519-596). *)
Definition analyze_disabled (st : HomeState) : bool :=
  st.(loadingWorker)
  || negb (JSString.truthy (JSString.trim st.(taskInput)))
  || match st.(currentStep) with Step1 => false | _ => true end.

Definition evaluate_offered (st : HomeState) : bool :=
  match st.(workerPlan) with
  | Some _ =>
      negb st.(loadingWorker)
      && negb (st.(loadingSentinel)
               || match st.(currentStep) with Step3 => true | _ => false end)
  | None => false
  end.

(** The verdict panel is filled (line 651):
    [verdict && sentinelResult && !loadingSentinel]. *)
Definition verdict_shown (st : HomeState) : bool :=
  match st.(verdict), st.(sentinelResult) with
  | Some _, Some _ => negb st.(loadingSentinel)
  | _, _ => false
  end.

(** The class that the second document derives for its verdict panel
    (line 1340). *)
Definition ringClass (t : VerdictType) : string :=
  JSString.replace "border-" "shadow-"
    (JSString.replace "text-" "ring-" (SecondDocumentView.getVerdictColor t))
  ++ "/20".

(** What every reachable page state satisfies. *)
Definition page_invariant (st : HomeState) : Prop :=
  (st.(currentStep) = Step3 -> st.(verdict) <> None)
  /\ (forall v : Verdict, st.(verdict) = Some v ->
        exists scores : RiskScores, v = calculateVerdict scores)
  /\ st.(error) <> Some "".

(** What it satisfies moreover when every settled call is well typed. *)
Definition typed_page_invariant (st : HomeState) : Prop :=
  verdict_matches_scores st
  /\ (st.(currentStep) = Step2 -> st.(workerPlan) <> None).

(** ** The engine with its effects

    [calculateVerdict] is a closure of [Home]: the page state and its setters
    are in its scope, and the array it builds with [push] is an object that
    the returned verdict refers to.  Here arrays live on a heap, next to the
    page state, and a call turns one world into the next or throws. *)

Module Effects.

(** A reference to an array of the heap. *)
Definition ref : Set := nat.

Record World : Set := mkWorld {
  arrays : list (list string);
  page : HomeState
}.

Inductive Outcome (A : Set) : Set :=
| Returned (a : A) (w : World)
| Thrown (w : World).

Arguments Returned {A}.
Arguments Thrown {A}.

Definition M (A : Set) : Set := World -> Outcome A.

Definition ret {A : Set} (a : A) : M A := fun w => Returned a w.

Definition bind {A B : Set} (m : M A) (k : A -> M B) : M B :=
  fun w =>
    match m w with
    | Returned a w' => k a w'
    | Thrown w' => Thrown w'
    end.

Notation "x <- m ;; k" := (bind m (fun x => k))
  (at level 61, m at next level, right associativity).
Notation "m ;; k" := (bind m (fun _ => k))
  (at level 61, right associativity).

(** A statement that calls a setter of the page. *)
Definition setState (set : HomeState -> HomeState) : M unit :=
  fun w => Returned tt (mkWorld w.(arrays) (set w.(page))).

(** The array literal [[]]: a new, empty array. *)
Definition newArray : M ref :=
  fun w => Returned (List.length w.(arrays)) (mkWorld (w.(arrays) ++ [[]]) w.(page)).

Fixpoint update (l : list (list string)) (r : ref) (a : list string)
  : list (list string) :=
  match l, r with
  | [], _ => []
  | _ :: rest, O => a :: rest
  | x :: rest, S r' => x :: update rest r' a
  end.

(** [arr.push(x)] on the array that [arr] refers to. *)
Definition push (arr : ref) (x : string) : M unit :=
  fun w =>
    match nth_error w.(arrays) arr with
    | Some a => Returned tt (mkWorld (update w.(arrays) arr (JS.push a x)) w.(page))
    | None => Thrown w
    end.

(** A verdict object: its [triggeredRules] is a reference. *)
Record VerdictObject : Set := mkVerdictObject {
  object_type : VerdictType;
  object_confidence : float;
  object_weightedScore : float;
  object_triggeredRules : ref
}.

(** What a verdict object holds in a world. *)
Definition snapshot (w : World) (v : VerdictObject) : option Verdict :=
  option_map
    (mkVerdict v.(object_type) v.(object_confidence) v.(object_weightedScore))
    (nth_error w.(arrays) v.(object_triggeredRules)).

(** Lines 84-153, statement by statement. *)
Definition calculateVerdict (scores : RiskScores) : M VerdictObject :=
  triggeredRules <- newArray ;;
  (* Hard overrides first *)
  if scores.(safety) >=? 3 then
    push triggeredRules "CRITICAL: Safety score ≥ 3" ;;
    ret (mkVerdictObject BLOCK 100 0 triggeredRules)
  else if (scores.(irreversibility) >=? 3) && (scores.(external_impact) >=? 2) then
    push triggeredRules
      "CRITICAL: Irreversibility ≥ 3 AND External Impact ≥ 2" ;;
    ret (mkVerdictObject BLOCK 100 0 triggeredRules)
  else if scores.(policy_violation) >=? 3 then
    push triggeredRules "CRITICAL: Policy Violation ≥ 3" ;;
    ret (mkVerdictObject BLOCK 100 0 triggeredRules)
  else
    (* Weighted scoring *)
    let weightedScore :=
      scores.(irreversibility) * 0.25 +
      scores.(external_impact) * 0.25 +
      scores.(financial) * 0.15 +
      scores.(safety) * 0.2 +
      scores.(missing_context) * 0.1 +
      scores.(policy_violation) * 0.05 in
    (* Confidence: inverse of the weighted score, as a percentage *)
    let confidence :=
      JS.Math_max 0 (JS.Math_min 100 (100 - (weightedScore / 3) * 100)) in
    (* Thresholds *)
    if weightedScore <? 1.0 then
      push triggeredRules "Weighted score < 1.0" ;;
      ret (mkVerdictObject APPROVE confidence weightedScore triggeredRules)
    else if weightedScore <? 1.5 then
      push triggeredRules "Weighted score < 1.5" ;;
      ret (mkVerdictObject APPROVE_WITH_NOTICE confidence weightedScore
             triggeredRules)
    else if scores.(missing_context) >=? 2 then
      push triggeredRules "Missing Context ≥ 2" ;;
      ret (mkVerdictObject ASK_FOR_CLARIFICATION confidence weightedScore
             triggeredRules)
    else if weightedScore <? 2.0 then
      push triggeredRules "Weighted score < 2.0" ;;
      ret (mkVerdictObject MODIFY confidence weightedScore triggeredRules)
    else
      push triggeredRules "Weighted score ≥ 2.0" ;;
      ret (mkVerdictObject BLOCK confidence weightedScore triggeredRules).

(** Lines 212-220: [handleReset] as the statements it runs. *)
Definition handleReset : M unit :=
  setState (setCurrentStep Step1) ;;
  setState (setTaskInput []) ;;
  setState (setWorkerPlan None) ;;
  setState (setSentinelResult None) ;;
  setState (setVerdict None) ;;
  setState (setError None) ;;
  setState (setShowExplanations false).

End Effects.

(** * Properties *)

Example all_zero_scores :
  calculateVerdict (mkRiskScores 0 0 0 0 0 0)
  = mkVerdict APPROVE 100 0 ["Weighted score < 1.0"].
Proof. reflexivity. Qed.

Example all_three_scores :
  calculateVerdict (mkRiskScores 3 3 3 3 3 3)
  = mkVerdict BLOCK 100 0 ["CRITICAL: Safety score ≥ 3"].
Proof. reflexivity. Qed.

(** ** Order facts on binary64 numbers

    The comparisons of the engine are the IEEE ones; their specification
    [SFcompare] is antisymmetric, which is all the ladder needs. *)

Section FloatOrder.

Lemma SFcompare_antisym (x y : spec_float) :
  SFcompare y x = option_map CompOpp (SFcompare x y).
Proof.
  destruct x as [sx | sx | | sx mx ex], y as [sy | sy | | sy my ey];
    try reflexivity;
    try (destruct sx; reflexivity);
    try (destruct sy; reflexivity);
    try (destruct sx, sy; reflexivity).
  cbn [SFcompare option_map].
  pose proof (Pos.compare_cont_antisym mx my Eq) as Hm. cbn [CompOpp] in Hm.
  destruct sx, sy; try reflexivity;
    rewrite (Z.compare_antisym ex ey);
    destruct (ex ?= ey)%Z; cbn [CompOpp]; try reflexivity;
    rewrite <- Hm; rewrite ?CompOpp_involutive; reflexivity.
Qed.

Lemma ltb_leb_false (a b : float) : (a <? b) = true -> (b <=? a) = false.
Proof.
  rewrite ltb_spec, leb_spec. unfold SFltb, SFleb.
  rewrite (SFcompare_antisym (Prim2SF a) (Prim2SF b)).
  destruct (SFcompare (Prim2SF a) (Prim2SF b)) as [[ | | ] | ];
    cbn; congruence.
Qed.

Lemma leb_ltb_false (a b : float) : (a <=? b) = true -> (b <? a) = false.
Proof.
  rewrite ltb_spec, leb_spec. unfold SFltb, SFleb.
  rewrite (SFcompare_antisym (Prim2SF a) (Prim2SF b)).
  destruct (SFcompare (Prim2SF a) (Prim2SF b)) as [[ | | ] | ];
    cbn; congruence.
Qed.

Lemma ge_lt_false (a b : float) : (a >=? b) = true -> (a <? b) = false.
Proof. unfold JS.ge. apply leb_ltb_false. Qed.

Lemma lt_ge_false (a b : float) : (a <? b) = true -> (a >=? b) = false.
Proof. unfold JS.ge. apply ltb_leb_false. Qed.

End FloatOrder.

(** ** Enumeration of the well-formed scores *)

Section Enumeration.

Lemma well_formed_enumerated (s : RiskScores) :
  well_formed s -> In s all_well_formed.
Proof.
  destruct s as [irr ext fin saf mis pol].
  unfold well_formed, is_dimension; cbn [irreversibility external_impact
    financial safety missing_context policy_violation].
  intros (Hirr & Hext & Hfin & Hsaf & Hmis & Hpol).
  unfold all_well_formed.
  apply in_flat_map; exists irr; split; [exact Hirr | ].
  apply in_flat_map; exists ext; split; [exact Hext | ].
  apply in_flat_map; exists fin; split; [exact Hfin | ].
  apply in_flat_map; exists saf; split; [exact Hsaf | ].
  apply in_flat_map; exists mis; split; [exact Hmis | ].
  apply (in_map (fun p => mkRiskScores irr ext fin saf mis p)); exact Hpol.
Qed.

Variable check : RiskScores -> bool.
Hypothesis check_all : forallb check all_well_formed = true.

Lemma check_well_formed (s : RiskScores) : well_formed s -> check s = true.
Proof.
  intros Hwf. apply (proj1 (forallb_forall check all_well_formed) check_all).
  apply well_formed_enumerated; exact Hwf.
Qed.

End Enumeration.

Lemma ladder_check_all : forallb ladder_check all_well_formed = true.
Proof. vm_compute. reflexivity. Qed.

Lemma confidence_check_all : forallb confidence_check all_well_formed = true.
Proof. vm_compute. reflexivity. Qed.

Lemma bound_check_all : forallb bound_check all_well_formed = true.
Proof. vm_compute. reflexivity. Qed.

Lemma well_formed_scores (i e f s m p : float) :
  is_dimension i -> is_dimension e -> is_dimension f ->
  is_dimension s -> is_dimension m -> is_dimension p ->
  well_formed (mkRiskScores i e f s m p).
Proof. unfold well_formed; cbn; auto 7. Qed.

(** ** The engine when no override fires *)

Lemma override_fires_false (s : RiskScores) :
  override_fires s = false ->
  safety_override s = false /\ irreversibility_override s = false
  /\ policy_override s = false.
Proof.
  unfold override_fires. intros H.
  apply orb_false_elim in H as [H Hpol].
  apply orb_false_elim in H as [Hsaf Hirr]. auto.
Qed.

Lemma weightedScore_no_override (s : RiskScores) :
  override_fires s = false ->
  weightedScore (calculateVerdict s) = spec_weightedScore s.
Proof.
  intros H. apply override_fires_false in H as (Hsaf & Hirr & Hpol).
  unfold safety_override, irreversibility_override, policy_override in *.
  unfold calculateVerdict. rewrite Hsaf, Hirr, Hpol.
  fold (spec_weightedScore s).
  destruct (spec_weightedScore s <? 1); [reflexivity | ].
  destruct (spec_weightedScore s <? 1.5); [reflexivity | ].
  destruct (missing_context s >=? 2); [reflexivity | ].
  destruct (spec_weightedScore s <? 2); reflexivity.
Qed.

(** ** Hard overrides *)

(** C2: whenever [safety >= 3], the engine returns BLOCK with confidence 100,
    weighted score 0 and the single triggered rule that names the safety
    override, whatever the other five dimensions are. *)
Theorem safety_override_blocks (s : RiskScores) :
  (s.(safety) >=? 3) = true ->
  calculateVerdict s = mkVerdict BLOCK 100 0 ["CRITICAL: Safety score ≥ 3"].
Proof.
  intros H. unfold calculateVerdict. rewrite H. reflexivity.
Qed.

Lemma safety_override_blocks_witness :
  (safety (mkRiskScores 0 1 2 3 1 0) >=? 3) = true
  /\ calculateVerdict (mkRiskScores 0 1 2 3 1 0)
     = mkVerdict BLOCK 100 0 ["CRITICAL: Safety score ≥ 3"].
Proof.
  split; [reflexivity | apply safety_override_blocks; reflexivity].
Defined.

(** C3: the overrides are tried in the order safety, irreversibility with
    external impact, policy.  With [safety < 3], [irreversibility >= 3] and
    [external_impact >= 2] the verdict is the BLOCK of the
    irreversibility/external-impact rule; when neither of these two overrides
    matched and [policy_violation >= 3], it is the BLOCK of the policy rule. *)
Theorem overrides_in_fixed_order (s : RiskScores) :
  ((s.(safety) <? 3) = true ->
   (s.(irreversibility) >=? 3) = true ->
   (s.(external_impact) >=? 2) = true ->
   calculateVerdict s
   = mkVerdict BLOCK 100 0
       ["CRITICAL: Irreversibility ≥ 3 AND External Impact ≥ 2"])
  /\
  (safety_override s = false ->
   irreversibility_override s = false ->
   (s.(policy_violation) >=? 3) = true ->
   calculateVerdict s = mkVerdict BLOCK 100 0 ["CRITICAL: Policy Violation ≥ 3"]).
Proof.
  split.
  - intros Hsaf Hirr Hext. apply lt_ge_false in Hsaf.
    unfold calculateVerdict. rewrite Hsaf, Hirr, Hext. reflexivity.
  - unfold safety_override, irreversibility_override.
    intros Hsaf Hirr Hpol.
    unfold calculateVerdict. rewrite Hsaf, Hirr, Hpol. reflexivity.
Qed.

Lemma overrides_in_fixed_order_witness :
  calculateVerdict (mkRiskScores 3 2 0 2 0 3)
  = mkVerdict BLOCK 100 0
      ["CRITICAL: Irreversibility ≥ 3 AND External Impact ≥ 2"]
  /\ calculateVerdict (mkRiskScores 3 1 0 2 0 3)
     = mkVerdict BLOCK 100 0 ["CRITICAL: Policy Violation ≥ 3"].
Proof.
  split.
  - apply (proj1 (overrides_in_fixed_order (mkRiskScores 3 2 0 2 0 3)));
      reflexivity.
  - apply (proj2 (overrides_in_fixed_order (mkRiskScores 3 1 0 2 0 3)));
      reflexivity.
Defined.

(** ** Threshold ladder *)

(** C1: on well-formed scores with no override, the verdict follows the
    ladder on the returned weighted score [w], first match first and with
    strict boundaries: [w < 1.0] approves; [1.0 <= w < 1.5] approves with
    notice; [w >= 1.5] with [missing_context >= 2] asks for clarification,
    however large [w] is; otherwise [1.5 <= w < 2.0] modifies and [w >= 2.0]
    blocks.  So [w = 1.0] approves with notice and [w = 2.0] blocks.  The
    five cases cover every such input. *)
Theorem threshold_ladder (s : RiskScores) :
  well_formed s ->
  override_fires s = false ->
  let v := calculateVerdict s in
  let w := weightedScore v in
  let m := missing_context s in
  ((w <? 1.0) = true -> type v = APPROVE)
  /\ ((w >=? 1.0) = true -> (w <? 1.5) = true -> type v = APPROVE_WITH_NOTICE)
  /\ ((w >=? 1.5) = true -> (m >=? 2) = true -> type v = ASK_FOR_CLARIFICATION)
  /\ ((w >=? 1.5) = true -> (m >=? 2) = false -> (w <? 2.0) = true ->
      type v = MODIFY)
  /\ ((w >=? 2.0) = true -> (m >=? 2) = false -> type v = BLOCK)
  /\ (w = 1.0 -> type v = APPROVE_WITH_NOTICE)
  /\ (w = 2.0 -> (m >=? 2) = false -> type v = BLOCK)
  /\ ((w <? 1.0) = true
      \/ ((w >=? 1.0) = true /\ (w <? 1.5) = true)
      \/ ((w >=? 1.5) = true /\ (m >=? 2) = true)
      \/ ((w >=? 1.5) = true /\ (m >=? 2) = false /\ (w <? 2.0) = true)
      \/ ((w >=? 2.0) = true /\ (m >=? 2) = false)).
Proof.
  intros Hwf Hov v w m.
  pose proof (check_well_formed ladder_check ladder_check_all s Hwf) as H.
  unfold ladder_check in H. rewrite Hov in H. cbn [negb implb] in H.
  fold v in H. fold w in H. fold m in H.
  assert (Hone : w = 1.0 -> (w >=? 1.0) = true /\ (w <? 1.5) = true)
    by (intros ->; split; reflexivity).
  assert (Htwo : w = 2.0 -> (w >=? 2.0) = true) by (intros ->; reflexivity).
  destruct (w <? 1.0), (w >=? 1.0), (w <? 1.5), (w >=? 1.5), (m >=? 2),
    (w <? 2.0), (w >=? 2.0), (type v);
    cbn in H; try discriminate H; clear H;
    repeat split; intros;
    try reflexivity; try discriminate;
    try (destruct Hone as [? ?]; [assumption | discriminate]);
    try (assert (false = true) by (apply Htwo; assumption); discriminate);
    tauto.
Qed.

Lemma threshold_ladder_witness :
  type (calculateVerdict (mkRiskScores 0 0 3 2 1 1)) = APPROVE_WITH_NOTICE
  /\ type (calculateVerdict (mkRiskScores 1 3 3 2 1 1)) = BLOCK
  /\ type (calculateVerdict (mkRiskScores 2 3 3 2 3 2)) = ASK_FOR_CLARIFICATION.
Proof.
  assert (H0 : is_dimension 0) by (cbn; auto).
  assert (H1 : is_dimension 1) by (cbn; auto).
  assert (H2 : is_dimension 2) by (cbn; auto).
  assert (H3 : is_dimension 3) by (cbn; auto 6).
  split; [ | split].
  - destruct (threshold_ladder (mkRiskScores 0 0 3 2 1 1)) as
      (_ & _ & _ & _ & _ & Hone & _);
      [apply well_formed_scores; assumption | reflexivity | ].
    apply Hone. reflexivity.
  - destruct (threshold_ladder (mkRiskScores 1 3 3 2 1 1)) as
      (_ & _ & _ & _ & _ & _ & Htwo & _);
      [apply well_formed_scores; assumption | reflexivity | ].
    apply Htwo; reflexivity.
  - destruct (threshold_ladder (mkRiskScores 2 3 3 2 3 2)) as
      (_ & _ & Hask & _);
      [apply well_formed_scores; assumption | reflexivity | ].
    apply Hask; reflexivity.
Defined.

(** ** Weighted score and confidence *)

(** C4: on well-formed scores with no override, the returned weighted score
    is the weighted sum of the specification and the returned confidence is
    [clamp (100 - (weightedScore / 3) * 100) 0 100], a value between 0 and
    100.  Sums and products are those of binary64 numbers, taken left to
    right as the engine writes them. *)
Theorem weighted_score_and_confidence (s : RiskScores) :
  well_formed s ->
  override_fires s = false ->
  let v := calculateVerdict s in
  weightedScore v
  = s.(irreversibility) * 0.25 + s.(external_impact) * 0.25
    + s.(financial) * 0.15 + s.(safety) * 0.20 + s.(missing_context) * 0.10
    + s.(policy_violation) * 0.05
  /\ confidence v = clamp (100 - (weightedScore v / 3) * 100) 0 100
  /\ (0 <=? confidence v) = true
  /\ (confidence v <=? 100) = true.
Proof.
  intros Hwf Hov v. split.
  - apply (weightedScore_no_override s Hov).
  - pose proof (check_well_formed confidence_check confidence_check_all s Hwf)
      as H.
    unfold confidence_check in H. rewrite Hov in H. cbn [negb implb] in H.
    fold v in H.
    apply andb_prop in H as [H Hhi]. apply andb_prop in H as [Heq Hlo].
    apply Leibniz.eqb_spec in Heq.
    repeat split; assumption.
Qed.

Lemma weighted_score_and_confidence_witness :
  let v := calculateVerdict (mkRiskScores 1 2 3 0 1 2) in
  weightedScore v = 1 * 0.25 + 2 * 0.25 + 3 * 0.15 + 0 * 0.20 + 1 * 0.10 + 2 * 0.05
  /\ confidence v = clamp (100 - (weightedScore v / 3) * 100) 0 100
  /\ (0 <=? confidence v) = true
  /\ (confidence v <=? 100) = true.
Proof.
  apply (weighted_score_and_confidence (mkRiskScores 1 2 3 0 1 2)).
  - apply well_formed_scores; cbn; auto 6.
  - reflexivity.
Defined.

(** ** Triggered rules *)

(** C5: every evaluation, override or ladder, returns exactly one triggered
    rule: the message of the first rule of the ordered rule list that
    matches the input. *)
Theorem exactly_one_triggered_rule (s : RiskScores) :
  exists msg : string,
    first_match s = Some msg
    /\ triggeredRules (calculateVerdict s) = [msg]
    /\ List.length (triggeredRules (calculateVerdict s)) = 1%nat.
Proof.
  unfold first_match, rule_table, calculateVerdict.
  unfold safety_override, irreversibility_override, policy_override.
  cbn [find fst snd].
  fold (spec_weightedScore s).
  destruct (safety s >=? 3);
    [eexists; repeat split | ].
  destruct ((irreversibility s >=? 3) && (external_impact s >=? 2));
    [eexists; repeat split | ].
  destruct (policy_violation s >=? 3);
    [eexists; repeat split | ].
  destruct (spec_weightedScore s <? 1);
    [eexists; repeat split | ].
  destruct (spec_weightedScore s <? 1.5);
    [eexists; repeat split | ].
  destruct (missing_context s >=? 2);
    [eexists; repeat split | ].
  destruct (spec_weightedScore s <? 2); eexists; repeat split.
Qed.

(** ** The missing-context scenario of the specification *)

(** The weighted score of the scenario is not the number that [0.95]
    denotes: the sum rounds to the next binary64 value above it. *)
Lemma scenario_score_is_not_0_95 :
  (weightedScore (calculateVerdict scenario_missing_context) =? 0.95) = false
  /\ weightedScore (calculateVerdict scenario_missing_context) <> 0.95.
Proof.
  split; [reflexivity | float_neq].
Qed.

(** C6, as the engine computes it: on
    [{irr:1, ext:1, fin:1, saf:0, mis:3, pol:0}] the weighted score is
    0.9500000000000001, the binary64 value next above 0.95; it is below 1.0,
    so the verdict is APPROVE by the first threshold although
    [missing_context = 3] would match the missing-context rule. *)
Theorem scenario_missing_context_approves :
  let v := calculateVerdict scenario_missing_context in
  weightedScore v = 0.9500000000000001
  /\ weightedScore v = next_up 0.95
  /\ (weightedScore v <? 1.0) = true
  /\ type v = APPROVE
  /\ triggeredRules v = ["Weighted score < 1.0"]
  /\ (missing_context scenario_missing_context >=? 2) = true.
Proof.
  cbv zeta. repeat split; vm_compute; reflexivity.
Qed.

(** ** Totality, purity and determinism *)

Section EngineEffects.

Lemma nth_error_fresh (l : list (list string)) (a : list string) :
  nth_error (l ++ [a])%list (List.length l) = Some a.
Proof.
  rewrite nth_error_app2 by apply le_n. rewrite Nat.sub_diag. reflexivity.
Qed.

Lemma nth_error_kept (l : list (list string)) (a b : list string)
    (r : Effects.ref) :
  nth_error l r = Some a -> nth_error (l ++ [b])%list r = Some a.
Proof.
  intros H. rewrite nth_error_app1; [exact H | ].
  apply nth_error_Some. rewrite H. discriminate.
Qed.

Lemma update_fresh (l : list (list string)) (a b : list string) :
  Effects.update (l ++ [a])%list (List.length l) b = (l ++ [b])%list.
Proof.
  induction l as [ | x l IH]; cbn; [reflexivity | ]. rewrite IH. reflexivity.
Qed.

(** A call allocates one array, pushes the rule into it and returns: the
    verdict it returns is the one of the pure reading, held in the new
    array, and the rest of the world is as before. *)
Lemma calculateVerdict_runs (s : RiskScores) (w : Effects.World) :
  Effects.calculateVerdict s w
  = Effects.Returned
      (Effects.mkVerdictObject (type (calculateVerdict s))
         (confidence (calculateVerdict s))
         (weightedScore (calculateVerdict s)) (List.length (Effects.arrays w)))
      (Effects.mkWorld (Effects.arrays w ++ [triggeredRules (calculateVerdict s)])%list
         (Effects.page w)).
Proof.
  unfold Effects.calculateVerdict, calculateVerdict.
  unfold Effects.bind at 1. cbn [Effects.newArray].
  repeat match goal with
  | |- context [if ?c then _ else _] => destruct c
  end;
    unfold Effects.bind, Effects.push, Effects.ret;
    cbn [Effects.arrays Effects.page];
    rewrite nth_error_fresh, update_fresh; reflexivity.
Qed.

Lemma handleReset_runs (w : Effects.World) :
  Effects.handleReset w
  = Effects.Returned tt
      (Effects.mkWorld (Effects.arrays w) (handleReset (Effects.page w))).
Proof. reflexivity. Qed.

End EngineEffects.

(** In this model a handler of the page does have an effect: Reset changes a
    page that is not in its initial state. *)
Example handleReset_changes_the_page :
  exists w w' : Effects.World,
    Effects.handleReset w = Effects.Returned tt w'
    /\ Effects.page w' <> Effects.page w.
Proof.
  exists (Effects.mkWorld [] (setCurrentStep Step3 initialState)).
  eexists. split; [reflexivity | ]. cbn. discriminate.
Qed.

(** C7: the engine is total, has no side effect and keeps no hidden state.
    Called on any scores in any world (any heap of arrays, any page state),
    it returns a verdict and does not throw; it leaves the page state and
    every array that existed before the call as they were, its only effect
    being the one new array that the verdict refers to; and what the verdict
    holds depends on the scores alone.  So a second call with the same
    scores, made in the world the first call left, returns a verdict with the
    same content in an array of its own, and leaves the first verdict as it
    was. *)
Theorem calculateVerdict_pure_total_deterministic
    (s : RiskScores) (w : Effects.World) :
  exists (v1 : Effects.VerdictObject) (w1 : Effects.World),
    Effects.calculateVerdict s w = Effects.Returned v1 w1
    /\ Effects.page w1 = Effects.page w
    /\ (forall (r : Effects.ref) (a : list string),
          nth_error (Effects.arrays w) r = Some a ->
          nth_error (Effects.arrays w1) r = Some a)
    /\ List.length (Effects.arrays w1) = S (List.length (Effects.arrays w))
    /\ Effects.snapshot w1 v1 = Some (calculateVerdict s)
    /\ exists (v2 : Effects.VerdictObject) (w2 : Effects.World),
         Effects.calculateVerdict s w1 = Effects.Returned v2 w2
         /\ Effects.page w2 = Effects.page w
         /\ Effects.snapshot w2 v2 = Effects.snapshot w1 v1
         /\ Effects.snapshot w2 v1 = Effects.snapshot w1 v1
         /\ Effects.object_triggeredRules v2 <> Effects.object_triggeredRules v1.
Proof.
  do 2 eexists. split; [apply calculateVerdict_runs | ].
  assert (Hsnap : forall l : list (list string),
            option_map
              (mkVerdict (type (calculateVerdict s))
                 (confidence (calculateVerdict s))
                 (weightedScore (calculateVerdict s)))
              (nth_error (l ++ [triggeredRules (calculateVerdict s)])%list
                 (List.length l))
            = Some (calculateVerdict s)).
  { intros l. rewrite nth_error_fresh. destruct (calculateVerdict s).
    reflexivity. }
  cbn [Effects.page Effects.arrays].
  split; [reflexivity | ].
  split; [intros r a Hr; apply nth_error_kept; exact Hr | ].
  split; [rewrite length_app, Nat.add_comm; reflexivity | ].
  split; [apply Hsnap | ].
  do 2 eexists. split; [apply calculateVerdict_runs | ].
  cbn [Effects.page Effects.arrays].
  split; [reflexivity | ].
  unfold Effects.snapshot;
    cbn [Effects.arrays Effects.object_type Effects.object_confidence
           Effects.object_weightedScore Effects.object_triggeredRules].
  split; [rewrite !Hsnap; reflexivity | ].
  split.
  - rewrite (nth_error_kept _ (triggeredRules (calculateVerdict s)) _ _
               (nth_error_fresh _ _)).
    rewrite nth_error_fresh. reflexivity.
  - rewrite length_app, Nat.add_comm. cbn. apply Nat.neq_succ_diag_l.
Qed.

(** ** Out-of-range input *)

(** C8: the engine validates no range.  A dimension equal to 5 passes every
    [>= 3] test made on it: [safety = 5] blocks by the safety override,
    [irreversibility = 5] passes the first half of the second override (and
    blocks with [external_impact >= 2]), and [policy_violation = 5] passes
    the policy test, so the verdict is an override BLOCK; and some
    out-of-range input on which no override fires gets a weighted score
    above 3. *)
Theorem out_of_range_input_is_evaluated :
  (forall s : RiskScores, s.(safety) = 5 ->
     (s.(safety) >=? 3) = true
     /\ calculateVerdict s = mkVerdict BLOCK 100 0 ["CRITICAL: Safety score ≥ 3"])
  /\ (forall s : RiskScores, s.(irreversibility) = 5 ->
        (s.(irreversibility) >=? 3) = true
        /\ ((s.(external_impact) >=? 2) = true ->
            type (calculateVerdict s) = BLOCK
            /\ confidence (calculateVerdict s) = 100
            /\ weightedScore (calculateVerdict s) = 0))
  /\ (forall s : RiskScores, s.(policy_violation) = 5 ->
        (s.(policy_violation) >=? 3) = true
        /\ type (calculateVerdict s) = BLOCK
        /\ confidence (calculateVerdict s) = 100
        /\ weightedScore (calculateVerdict s) = 0)
  /\ (exists s : RiskScores,
        ~ well_formed s
        /\ override_fires s = false
        /\ (3 <? weightedScore (calculateVerdict s)) = true).
Proof.
  split; [ | split; [ | split]].
  - intros s H.
    assert (Hge : (safety s >=? 3) = true) by (rewrite H; reflexivity).
    split; [exact Hge | ].
    unfold calculateVerdict. rewrite Hge. reflexivity.
  - intros s H.
    assert (Hge : (irreversibility s >=? 3) = true) by (rewrite H; reflexivity).
    split; [exact Hge | ].
    intros Hext. unfold calculateVerdict. rewrite Hge, Hext.
    destruct (safety s >=? 3); cbn; auto.
  - intros s H.
    assert (Hge : (policy_violation s >=? 3) = true) by (rewrite H; reflexivity).
    split; [exact Hge | ].
    unfold calculateVerdict. rewrite Hge.
    destruct (safety s >=? 3); [cbn; auto | ].
    destruct ((irreversibility s >=? 3) && (external_impact s >=? 2));
      cbn; auto.
  - exists scores_out_of_range. split; [ | split; reflexivity].
    intros (_ & Hext & _). cbn in Hext.
    destruct Hext as [H | [H | [H | [H | []]]]]; revert H; float_neq.
Qed.

Lemma out_of_range_input_is_evaluated_witness :
  calculateVerdict (mkRiskScores 0 0 0 5 0 0)
  = mkVerdict BLOCK 100 0 ["CRITICAL: Safety score ≥ 3"]
  /\ type (calculateVerdict (mkRiskScores 5 2 0 0 0 0)) = BLOCK
  /\ type (calculateVerdict (mkRiskScores 0 0 0 0 0 5)) = BLOCK.
Proof.
  split; [ | split].
  - apply (proj1 out_of_range_input_is_evaluated (mkRiskScores 0 0 0 5 0 0)).
    reflexivity.
  - apply (proj1 (proj2 out_of_range_input_is_evaluated)
             (mkRiskScores 5 2 0 0 0 0)); reflexivity.
  - apply (proj1 (proj2 (proj2 out_of_range_input_is_evaluated))
             (mkRiskScores 0 0 0 0 0 5)). reflexivity.
Defined.

(** ** Bounds when no override fires *)

(** The well-formed record [{irr:2, ext:3, fin:3, saf:2, mis:3, pol:2}]
    passes every override, and its weighted score rounds above 2.5; its
    confidence is below the binary64 quotient [50 / 3]. *)
Lemma highest_weighted_score_exceeds_2_5 :
  well_formed scores_highest_weighted
  /\ override_fires scores_highest_weighted = false
  /\ (weightedScore (calculateVerdict scores_highest_weighted) <=? 2.5) = false
  /\ (confidence (calculateVerdict scores_highest_weighted) >=? 50 / 3) = false.
Proof.
  split; [apply well_formed_scores; cbn; auto 6 | ].
  repeat split.
Qed.

(** C9, as the engine computes it: on well-formed scores with no override
    the weighted score is at most 2.5000000000000004, the binary64 value next
    above 2.5 (so well below 3), the confidence is at least
    16.666666666666657, and [100 - (weightedScore / 3) * 100] is positive, so
    the lower clamp at 0 is never exercised and the confidence is that value
    itself.  Both bounds are reached at
    [{irr:2, ext:3, fin:3, saf:2, mis:3, pol:2}]. *)
Theorem weighted_score_bound :
  (forall s : RiskScores,
     well_formed s ->
     override_fires s = false ->
     let v := calculateVerdict s in
     let w := weightedScore v in
     (w <=? weightedScore_bound) = true
     /\ (confidence_floor <=? confidence v) = true
     /\ (0 <? 100 - (w / 3) * 100) = true
     /\ confidence v = 100 - (w / 3) * 100)
  /\ weightedScore_bound = next_up 2.5
  /\ weightedScore_bound = 2.5000000000000004
  /\ (weightedScore_bound <? 3) = true
  /\ confidence_floor = 16.666666666666657
  /\ weightedScore (calculateVerdict scores_highest_weighted)
     = weightedScore_bound
  /\ confidence (calculateVerdict scores_highest_weighted) = confidence_floor.
Proof.
  split; [ | repeat split].
  intros s Hwf Hov v w.
  pose proof (check_well_formed bound_check bound_check_all s Hwf) as H.
  unfold bound_check in H. rewrite Hov in H. cbn [negb implb] in H.
  fold v in H. fold w in H.
  apply andb_prop in H as [H Heq]. apply andb_prop in H as [H Hpos].
  apply andb_prop in H as [Hw Hc].
  apply Leibniz.eqb_spec in Heq.
  repeat split; assumption.
Qed.

Lemma weighted_score_bound_witness :
  let v := calculateVerdict (mkRiskScores 3 1 3 2 3 2) in
  let w := weightedScore v in
  (w <=? weightedScore_bound) = true
  /\ (confidence_floor <=? confidence v) = true
  /\ (0 <? 100 - (w / 3) * 100) = true
  /\ confidence v = 100 - (w / 3) * 100.
Proof.
  apply (proj1 weighted_score_bound (mkRiskScores 3 1 3 2 3 2)).
  - apply well_formed_scores; cbn; auto 6.
  - reflexivity.
Defined.

(** ** Rounding at the first threshold *)

(** The weights of [{irr:0, ext:0, fin:2, saf:2, mis:2, pol:2}] add up to 1
    over the reals; the engine's sum is the binary64 value just below 1, and
    the verdict is APPROVE. *)
Example weighted_score_rounds_below_one :
  weightedScore (calculateVerdict (mkRiskScores 0 0 2 2 2 2)) = next_down 1
  /\ type (calculateVerdict (mkRiskScores 0 0 2 2 2 2)) = APPROVE.
Proof. split; reflexivity. Qed.

(** ** The two copies of the engine *)

(** C10: the [calculateVerdict] of the second document returns the same
    verdict as the [calculateVerdict] of the first on every input. *)
Theorem duplicated_engines_agree (s : RiskScores) :
  SecondDocument.calculateVerdict s = calculateVerdict s.
Proof.
  unfold SecondDocument.calculateVerdict, calculateVerdict.
  destruct (safety s >=? 3); [reflexivity | ].
  destruct ((irreversibility s >=? 3) && (external_impact s >=? 2));
    [reflexivity | ].
  destruct (policy_violation s >=? 3); reflexivity.
Qed.

(** * Further properties of the engine *)

(** ** NaN dimensions *)

Section NaN.

Lemma SFcompare_refl (x : spec_float) :
  x <> S754_nan -> SFcompare x x = Some Eq.
Proof.
  destruct x as [s | s | | s m e]; intros H; try congruence; cbn.
  - reflexivity.
  - destruct s; reflexivity.
  - rewrite Z.compare_refl, Pos.compare_cont_refl. destruct s; reflexivity.
Qed.

Lemma is_nan_eq (x : float) : is_nan x = true -> x = nan.
Proof.
  unfold is_nan. rewrite FloatAxioms.eqb_spec. unfold SFeqb. intros H.
  apply Prim2SF_inj. change (Prim2SF nan) with S754_nan.
  destruct (Prim2SF x) eqn:E; try reflexivity;
    rewrite SFcompare_refl in H by congruence; discriminate.
Qed.

Lemma mul_nan_l (y : float) : nan * y = nan.
Proof.
  apply Prim2SF_inj. rewrite mul_spec. change (Prim2SF nan) with S754_nan.
  reflexivity.
Qed.

Lemma add_nan_l (y : float) : nan + y = nan.
Proof.
  apply Prim2SF_inj. rewrite add_spec. change (Prim2SF nan) with S754_nan.
  reflexivity.
Qed.

Lemma add_nan_r (x : float) : x + nan = nan.
Proof.
  apply Prim2SF_inj. rewrite add_spec. change (Prim2SF nan) with S754_nan.
  destruct (Prim2SF x); reflexivity.
Qed.

Lemma weighted_sum_nan (s : RiskScores) :
  has_nan s = true -> spec_weightedScore s = nan.
Proof.
  unfold has_nan, spec_weightedScore. intros H.
  repeat (apply orb_prop in H as [H | H]);
    apply is_nan_eq in H; rewrite H;
    repeat (rewrite mul_nan_l || rewrite add_nan_l || rewrite add_nan_r);
    reflexivity.
Qed.

End NaN.

(** X1: a NaN in any dimension never leads to an approval or a MODIFY.  The
    verdict is BLOCK or ASK_FOR_CLARIFICATION; when no override fires, the
    weighted score and the confidence are NaN, and the verdict is
    ASK_FOR_CLARIFICATION if [missing_context >= 2] and the BLOCK of the
    last rule otherwise. *)
Theorem nan_dimension_never_approves (s : RiskScores) :
  has_nan s = true ->
  let v := calculateVerdict s in
  (type v = BLOCK \/ type v = ASK_FOR_CLARIFICATION)
  /\ (override_fires s = false ->
      weightedScore v = nan
      /\ confidence v = nan
      /\ v = if s.(missing_context) >=? 2
             then mkVerdict ASK_FOR_CLARIFICATION nan nan ["Missing Context ≥ 2"]
             else mkVerdict BLOCK nan nan ["Weighted score ≥ 2.0"]).
Proof.
  intros Hnan v. apply weighted_sum_nan in Hnan.
  assert (Hv : override_fires s = false ->
               v = if s.(missing_context) >=? 2
                   then mkVerdict ASK_FOR_CLARIFICATION nan nan
                          ["Missing Context ≥ 2"]
                   else mkVerdict BLOCK nan nan ["Weighted score ≥ 2.0"]).
  { intros Hov. apply override_fires_false in Hov as (Hsaf & Hirr & Hpol).
    unfold safety_override, irreversibility_override, policy_override in *.
    unfold v, calculateVerdict. rewrite Hsaf, Hirr, Hpol.
    fold (spec_weightedScore s). rewrite Hnan.
    destruct (missing_context s >=? 2); reflexivity. }
  split.
  - destruct (override_fires s) eqn:Hov.
    + unfold override_fires, safety_override, irreversibility_override,
        policy_override in Hov.
      unfold v, calculateVerdict.
      destruct (safety s >=? 3); [left; reflexivity | ].
      destruct ((irreversibility s >=? 3) && (external_impact s >=? 2));
        [left; reflexivity | ].
      destruct (policy_violation s >=? 3); [left; reflexivity | ].
      discriminate Hov.
    + rewrite (Hv eq_refl).
      destruct (missing_context s >=? 2); [right | left]; reflexivity.
  - intros Hov. rewrite (Hv Hov).
    destruct (missing_context s >=? 2); repeat split.
Qed.

Lemma nan_dimension_never_approves_witness :
  calculateVerdict (mkRiskScores 0 0 nan 0 0 0)
  = mkVerdict BLOCK nan nan ["Weighted score ≥ 2.0"]
  /\ calculateVerdict (mkRiskScores 0 0 0 nan 2 0)
     = mkVerdict ASK_FOR_CLARIFICATION nan nan ["Missing Context ≥ 2"].
Proof.
  split.
  - apply (proj2 (nan_dimension_never_approves (mkRiskScores 0 0 nan 0 0 0)
                    eq_refl) eq_refl).
  - apply (proj2 (nan_dimension_never_approves (mkRiskScores 0 0 0 nan 2 0)
                    eq_refl) eq_refl).
Defined.

(** ** Telling an override from the ladder *)

Lemma type_no_override (s : RiskScores) :
  override_fires s = false ->
  type (calculateVerdict s)
  = if spec_weightedScore s <? 1.0 then APPROVE
    else if spec_weightedScore s <? 1.5 then APPROVE_WITH_NOTICE
    else if s.(missing_context) >=? 2 then ASK_FOR_CLARIFICATION
    else if spec_weightedScore s <? 2.0 then MODIFY
    else BLOCK.
Proof.
  intros H. apply override_fires_false in H as (Hsaf & Hirr & Hpol).
  unfold safety_override, irreversibility_override, policy_override in *.
  unfold calculateVerdict. rewrite Hsaf, Hirr, Hpol.
  fold (spec_weightedScore s).
  destruct (spec_weightedScore s <? 1); [reflexivity | ].
  destruct (spec_weightedScore s <? 1.5); [reflexivity | ].
  destruct (missing_context s >=? 2); [reflexivity | ].
  destruct (spec_weightedScore s <? 2); reflexivity.
Qed.

(** X2: for every input, a hard override fired exactly when the verdict is
    BLOCK with weighted score 0; a BLOCK of the ladder never carries the
    score 0, so the two kinds of BLOCK can be told apart from the verdict
    alone. *)
Theorem override_iff_block_with_zero_score (s : RiskScores) :
  override_fires s = true
  <-> (type (calculateVerdict s) = BLOCK
       /\ weightedScore (calculateVerdict s) = 0).
Proof.
  split.
  - unfold override_fires, safety_override, irreversibility_override,
      policy_override, calculateVerdict.
    destruct (safety s >=? 3); [split; reflexivity | ].
    destruct ((irreversibility s >=? 3) && (external_impact s >=? 2));
      [split; reflexivity | ].
    destruct (policy_violation s >=? 3); [split; reflexivity | ].
    discriminate.
  - intros [Hty Hw]. destruct (override_fires s) eqn:Hov; [reflexivity | ].
    rewrite (weightedScore_no_override s Hov) in Hw.
    rewrite (type_no_override s Hov), Hw in Hty.
    discriminate Hty.
Qed.

(** ** Monotonicity in the dimensions *)

Lemma monotone_check_all : forallb monotone_check all_well_formed = true.
Proof. vm_compute. reflexivity. Qed.

(** X3: on well-formed records, if [hi] is at least [lo] in every dimension
    and no override fires on [hi], then none fires on [lo], the weighted
    score of [lo] is at most that of [hi] and its confidence at least that of
    [hi]; both comparisons are strict as soon as one dimension differs.
    Binary64 rounding never reverses the order. *)
Theorem weighted_score_monotone (lo hi : RiskScores) :
  well_formed lo ->
  well_formed hi ->
  dominates hi lo = true ->
  override_fires hi = false ->
  override_fires lo = false
  /\ (weightedScore (calculateVerdict lo)
      <=? weightedScore (calculateVerdict hi)) = true
  /\ (confidence (calculateVerdict hi)
      <=? confidence (calculateVerdict lo)) = true
  /\ (strictly_dominates hi lo = true ->
      (weightedScore (calculateVerdict lo)
       <? weightedScore (calculateVerdict hi)) = true
      /\ (confidence (calculateVerdict hi)
          <? confidence (calculateVerdict lo)) = true).
Proof.
  intros Hlo Hhi Hdom Hov.
  pose proof (check_well_formed monotone_check monotone_check_all hi Hhi) as H.
  unfold monotone_check in H. rewrite Hov in H.
  pose proof (proj1 (forallb_forall _ _) H lo (well_formed_enumerated lo Hlo))
    as Hpair.
  cbv beta zeta in Hpair. rewrite Hdom in Hpair.
  apply andb_prop in Hpair as [Hweak Hstrict].
  apply andb_prop in Hweak as [Hweak Hc].
  apply andb_prop in Hweak as [Hno Hw].
  apply negb_true_iff in Hno.
  split; [exact Hno | split; [exact Hw | split; [exact Hc | ]]].
  intros Hs. rewrite Hs in Hstrict. cbn [implb] in Hstrict.
  apply andb_prop in Hstrict. exact Hstrict.
Qed.

Lemma weighted_score_monotone_witness :
  override_fires (mkRiskScores 1 0 2 1 3 0) = false
  /\ (weightedScore (calculateVerdict (mkRiskScores 1 0 2 1 3 0))
      <=? weightedScore (calculateVerdict (mkRiskScores 2 1 2 2 3 1))) = true
  /\ (confidence (calculateVerdict (mkRiskScores 2 1 2 2 3 1))
      <=? confidence (calculateVerdict (mkRiskScores 1 0 2 1 3 0))) = true.
Proof.
  destruct (weighted_score_monotone (mkRiskScores 1 0 2 1 3 0)
              (mkRiskScores 2 1 2 2 3 1)) as (Hov & Hw & Hc & _).
  - apply well_formed_scores; cbn; auto 6.
  - apply well_formed_scores; cbn; auto 6.
  - reflexivity.
  - reflexivity.
  - split; [exact Hov | split; [exact Hw | exact Hc]].
Defined.

(** ** Missing context softens the verdict *)

Lemma softening_check_all : forallb softening_check all_well_formed = true.
Proof. vm_compute. reflexivity. Qed.

(** X4: the verdict is not monotone in the risk.  Whenever a well-formed
    record gets MODIFY or BLOCK from the ladder, the same record with
    [missing_context] raised to 2 or 3 gets ASK_FOR_CLARIFICATION. *)
Theorem missing_context_softens_verdict (s : RiskScores) (m : float) :
  well_formed s ->
  override_fires s = false ->
  type (calculateVerdict s) = MODIFY \/ type (calculateVerdict s) = BLOCK ->
  is_dimension m ->
  (m >=? 2) = true ->
  type (calculateVerdict (with_missing_context s m)) = ASK_FOR_CLARIFICATION.
Proof.
  intros Hwf Hov Hty Hm Hge.
  pose proof (check_well_formed softening_check softening_check_all s Hwf) as H.
  unfold softening_check in H. rewrite Hov in H.
  assert (Hpre : VerdictType_eqb (type (calculateVerdict s)) MODIFY
                 || VerdictType_eqb (type (calculateVerdict s)) BLOCK = true)
    by (destruct Hty as [-> | ->]; reflexivity).
  rewrite Hpre in H. cbn [negb andb implb] in H.
  pose proof (proj1 (forallb_forall _ _) H m Hm) as Hone.
  cbv beta in Hone. rewrite Hge in Hone. cbn [implb] in Hone.
  destruct (type (calculateVerdict (with_missing_context s m)));
    try discriminate Hone; reflexivity.
Qed.

Lemma missing_context_softens_verdict_witness :
  type (calculateVerdict (mkRiskScores 1 3 3 2 1 1)) = BLOCK
  /\ type (calculateVerdict (mkRiskScores 1 3 3 2 2 1)) = ASK_FOR_CLARIFICATION.
Proof.
  split; [reflexivity | ].
  apply (missing_context_softens_verdict (mkRiskScores 1 3 3 2 1 1) 2).
  - apply well_formed_scores; cbn; auto 6.
  - reflexivity.
  - right; reflexivity.
  - cbn; auto.
  - reflexivity.
Defined.

(** ** Confidence bands *)

Lemma band_check_all : forallb band_check all_well_formed = true.
Proof. vm_compute. reflexivity. Qed.

(** X5: the confidence is the inverse of the risk, not the certainty of the
    verdict.  On well-formed records with no override, APPROVE comes with a
    confidence above 66.66, APPROVE_WITH_NOTICE with one between 50 and
    66.67, MODIFY with one between 33.34 and 50, ASK_FOR_CLARIFICATION with
    at most 50, and BLOCK with less than 33.34, whereas a BLOCK by override
    reports 100. *)
Theorem confidence_bands (s : RiskScores) :
  well_formed s ->
  let v := calculateVerdict s in
  let c := confidence v in
  (override_fires s = true -> type v = BLOCK /\ c = 100)
  /\ (override_fires s = false ->
      (type v = APPROVE -> (66.66 <? c) = true /\ (c <=? 100) = true)
      /\ (type v = APPROVE_WITH_NOTICE ->
          (50 <? c) = true /\ (c <? 66.67) = true)
      /\ (type v = ASK_FOR_CLARIFICATION ->
          (16.66 <? c) = true /\ (c <=? 50) = true)
      /\ (type v = MODIFY -> (33.34 <? c) = true /\ (c <=? 50) = true)
      /\ (type v = BLOCK -> (16.66 <? c) = true /\ (c <? 33.34) = true)).
Proof.
  intros Hwf v c. split.
  - intros Hov. unfold c, v.
    unfold override_fires, safety_override, irreversibility_override,
      policy_override in Hov.
    unfold calculateVerdict.
    destruct (safety s >=? 3); [split; reflexivity | ].
    destruct ((irreversibility s >=? 3) && (external_impact s >=? 2));
      [split; reflexivity | ].
    destruct (policy_violation s >=? 3); [split; reflexivity | ].
    discriminate Hov.
  - intros Hov.
    pose proof (check_well_formed band_check band_check_all s Hwf) as H.
    unfold band_check in H. rewrite Hov in H. cbn [negb implb] in H.
    fold v in H. fold c in H.
    destruct (type v); apply andb_prop in H; destruct H as [Hlow Hhigh];
      repeat split; intros; first [assumption | congruence].
Qed.

Lemma confidence_bands_witness :
  type (calculateVerdict (mkRiskScores 0 0 0 3 0 0)) = BLOCK
  /\ confidence (calculateVerdict (mkRiskScores 0 0 0 3 0 0)) = 100
  /\ (confidence (calculateVerdict (mkRiskScores 1 3 3 2 1 1)) <? 33.34) = true.
Proof.
  split; [ | split].
  - apply (proj1 (confidence_bands (mkRiskScores 0 0 0 3 0 0)
                    ltac:(apply well_formed_scores; cbn; auto 6))).
    reflexivity.
  - apply (proj1 (confidence_bands (mkRiskScores 0 0 0 3 0 0)
                    ltac:(apply well_formed_scores; cbn; auto 6))).
    reflexivity.
  - destruct (proj2 (confidence_bands (mkRiskScores 1 3 3 2 1 1)
                       ltac:(apply well_formed_scores; cbn; auto 6)) eq_refl)
      as (_ & _ & _ & _ & Hblock).
    apply Hblock. reflexivity.
Defined.

(** ** No dead rule *)

(** X6: every rule of the ordered list is the first match of some
    well-formed record, so none of the eight branches of the engine is dead,
    and every one of the five verdict types is returned on some well-formed
    record. *)
Theorem every_rule_reachable :
  (forall r : rule, In r rule_table ->
     exists s : RiskScores,
       well_formed s /\ triggeredRules (calculateVerdict s) = [snd r])
  /\ (forall t : VerdictType,
        exists s : RiskScores, well_formed s /\ type (calculateVerdict s) = t).
Proof.
  assert (Hwf : forall s, In s rule_examples -> well_formed s).
  { intros s Hs. cbn in Hs.
    repeat (destruct Hs as [<- | Hs];
            [apply well_formed_scores; cbn; auto 6 | ]).
    destruct Hs. }
  split.
  - intros r Hr. cbn in Hr.
    destruct Hr as [<- | [<- | [<- | [<- | [<- | [<- | [<- | [<- | []]]]]]]]].
    + exists (nth 0 rule_examples scenario_missing_context).
      split; [apply Hwf; cbn; auto 9 | reflexivity].
    + exists (nth 1 rule_examples scenario_missing_context).
      split; [apply Hwf; cbn; auto 9 | reflexivity].
    + exists (nth 2 rule_examples scenario_missing_context).
      split; [apply Hwf; cbn; auto 9 | reflexivity].
    + exists (nth 3 rule_examples scenario_missing_context).
      split; [apply Hwf; cbn; auto 9 | reflexivity].
    + exists (nth 4 rule_examples scenario_missing_context).
      split; [apply Hwf; cbn; auto 9 | reflexivity].
    + exists (nth 5 rule_examples scenario_missing_context).
      split; [apply Hwf; cbn; auto 9 | reflexivity].
    + exists (nth 6 rule_examples scenario_missing_context).
      split; [apply Hwf; cbn; auto 9 | reflexivity].
    + exists (nth 7 rule_examples scenario_missing_context).
      split; [apply Hwf; cbn; auto 9 | reflexivity].
  - intros [ | | | | ].
    + exists (nth 3 rule_examples scenario_missing_context).
      split; [apply Hwf; cbn; auto 9 | reflexivity].
    + exists (nth 4 rule_examples scenario_missing_context).
      split; [apply Hwf; cbn; auto 9 | reflexivity].
    + exists (nth 5 rule_examples scenario_missing_context).
      split; [apply Hwf; cbn; auto 9 | reflexivity].
    + exists (nth 6 rule_examples scenario_missing_context).
      split; [apply Hwf; cbn; auto 9 | reflexivity].
    + exists (nth 7 rule_examples scenario_missing_context).
      split; [apply Hwf; cbn; auto 9 | reflexivity].
Qed.

(** * Presentation *)

(** X7: the palette helpers always agree on the colour family of a score,
    for every number: gray, blue and amber for 0, 1 and 2, red for anything
    else (3, but also 5, 1.5, -1 or NaN); the second document differs only
    in the shade of its red text.  The shadow of a lit bar segment follows
    the same family on the scores 0 to 3, but is gray next to a red
    background for every other score. *)
Theorem risk_palette_families (score level : float) :
  let f := family_name (risk_family score) in
  getRiskColor score = "text-" ++ f ++ "-400"
  /\ getRiskBg score = "bg-" ++ f ++ "-500/20"
  /\ getRiskGradient score = "from-" ++ f ++ "-500/20 to-" ++ f ++ "-600/10"
  /\ SecondDocumentView.getRiskBg score = getRiskBg score
  /\ SecondDocumentView.getRiskColor score
     = (match risk_family score with
        | Red => "text-red-500"
        | _ => getRiskColor score
        end)
  /\ (is_dimension score -> segmentShadow score = "shadow-" ++ f ++ "-500/50")
  /\ ((score =? 0) = false -> (score =? 1) = false -> (score =? 2) = false ->
      (score =? 3) = false -> (level <=? score) = true ->
      segmentClass level score
      = "h-2 flex-1 rounded-full transition-all duration-500 bg-red-500/20 shadow-lg shadow-gray-500/50").
Proof.
  cbv zeta.
  unfold getRiskColor, getRiskBg, getRiskGradient, SecondDocumentView.getRiskBg,
    SecondDocumentView.getRiskColor, risk_family, segmentClass, segmentShadow,
    getRiskBg.
  repeat split.
  - destruct (score =? 0); [reflexivity | ].
    destruct (score =? 1); [reflexivity | ].
    destruct (score =? 2); reflexivity.
  - destruct (score =? 0); [reflexivity | ].
    destruct (score =? 1); [reflexivity | ].
    destruct (score =? 2); reflexivity.
  - destruct (score =? 0); [reflexivity | ].
    destruct (score =? 1); [reflexivity | ].
    destruct (score =? 2); reflexivity.
  - destruct (score =? 0); [reflexivity | ].
    destruct (score =? 1); [reflexivity | ].
    destruct (score =? 2); reflexivity.
  - intros [<- | [<- | [<- | [<- | []]]]]; reflexivity.
  - intros H0 H1 H2 H3 Hle. rewrite H0, H1, H2, H3, Hle. reflexivity.
Qed.

Lemma risk_palette_families_witness :
  segmentShadow 2 = "shadow-amber-500/50"
  /\ segmentClass 3 5
     = "h-2 flex-1 rounded-full transition-all duration-500 bg-red-500/20 shadow-lg shadow-gray-500/50".
Proof.
  split.
  - apply (risk_palette_families 2 0). cbn; auto.
  - apply (risk_palette_families 5 3); reflexivity.
Defined.



(** X9: the ring class that the second document derives from a verdict
    colour by two [replace] calls renames exactly the two prefixes: from
    [text-C border-C] it makes [ring-C shadow-C/20], for each of the five
    verdict types. *)
Theorem ring_class_renames_prefixes (t : VerdictType) :
  exists c : string,
    SecondDocumentView.getVerdictColor t = "text-" ++ c ++ " border-" ++ c
    /\ ringClass t = "ring-" ++ c ++ " shadow-" ++ c ++ "/20".
Proof.
  destruct t;
    [ exists "emerald-500" | exists "green-400" | exists "amber-400"
    | exists "orange-500" | exists "red-500" ];
    split; reflexivity.
Qed.

(** X10: every key of the risk scores has its own icon; the fallback bullet
    is used for none of the six dimensions, and for every other string. *)
Theorem dimension_icons_cover_keys :
  (forall k : string, In k risk_score_keys -> getDimensionIcon k <> "•")
  /\ (forall k1 k2 : string,
        In k1 risk_score_keys -> In k2 risk_score_keys ->
        getDimensionIcon k1 = getDimensionIcon k2 -> k1 = k2)
  /\ (forall k : string, ~ In k risk_score_keys -> getDimensionIcon k = "•").
Proof.
  split; [ | split].
  - intros k Hk. cbn in Hk.
    repeat (destruct Hk as [<- | Hk]; [cbn; discriminate | ]).
    destruct Hk.
  - intros k1 k2 H1 H2. cbn in H1, H2.
    repeat (destruct H1 as [<- | H1];
            [repeat (destruct H2 as [<- | H2];
                     [cbn; intros; first [reflexivity | discriminate] | ]);
             destruct H2 | ]).
    destruct H1.
  - intros k Hk. unfold getDimensionIcon.
    repeat match goal with
    | |- context [(k =? ?lit)%string] =>
        destruct (String.eqb_spec k lit) as [-> | _];
        [exfalso; apply Hk; cbn; auto 7 | ]
    end.
    reflexivity.
Qed.

Lemma dimension_icons_cover_keys_witness :
  getDimensionIcon "safety" <> "•" /\ getDimensionIcon "Safety" = "•".
Proof.
  split.
  - apply (proj1 dimension_icons_cover_keys). cbn; auto 7.
  - apply (proj2 (proj2 dimension_icons_cover_keys)).
    cbn. intros H. repeat (destruct H as [H | H]; [discriminate H | ]).
    exact H.
Defined.

(** * The page workflow *)

(** ** Blank input *)

Section Trim.

Lemma trimStart_nil_iff (s : JSString.text) :
  JSString.trimStart s = [] <-> forallb JSString.is_whitespace s = true.
Proof.
  induction s as [ | c rest IH]; cbn; [tauto | ].
  destruct (JSString.is_whitespace c); cbn; [exact IH | ].
  split; discriminate.
Qed.

Lemma trimStart_head (s : JSString.text) (c : N) (rest : JSString.text) :
  JSString.trimStart s = c :: rest -> JSString.is_whitespace c = false.
Proof.
  induction s as [ | d s IH]; cbn; [discriminate | ].
  destruct (JSString.is_whitespace d) eqn:Hd; [exact IH | ].
  intros H. injection H as -> _. exact Hd.
Qed.

Lemma trim_nil_iff (s : JSString.text) :
  JSString.trim s = [] <-> forallb JSString.is_whitespace s = true.
Proof.
  unfold JSString.trim, JSString.trimEnd. split.
  - intros H.
    destruct (JSString.trimStart s) as [ | c rest] eqn:Hs;
      [apply trimStart_nil_iff; exact Hs | exfalso].
    apply (f_equal (@rev N)) in H. rewrite rev_involutive in H. cbn [rev] in H.
    apply trimStart_nil_iff in H. rewrite forallb_app in H.
    apply andb_prop in H as [_ H]. cbn [forallb] in H.
    rewrite (trimStart_head s c rest Hs) in H. discriminate H.
  - intros H. apply trimStart_nil_iff in H. rewrite H. reflexivity.
Qed.

End Trim.

(** X11: the guards of the handlers agree with the buttons.  A task made
    only of white space (or empty) never starts a request: [analyzeTask]
    only sets the error "Please enter a task description".  Whenever the
    Analyze button is enabled, [analyzeTask] calls the worker agent, and
    whenever the Evaluate button is offered, [evaluatePlan] sends the plan of
    the page to the sentinel agent. *)
Theorem handler_guards_agree_with_buttons (st : HomeState) :
  (forallb JSString.is_whitespace st.(taskInput) = true ->
   analyzeTask_begin st
   = (setError (Some "Please enter a task description") st, false))
  /\ (analyze_disabled st = false ->
      analyzeTask_begin st = (setError None (setLoadingWorker true st), true))
  /\ (evaluate_offered st = true ->
      exists p : WorkerPlan,
        st.(workerPlan) = Some p
        /\ evaluatePlan_begin st
           = (setError None (setLoadingSentinel true st), Some p)).
Proof.
  split; [ | split].
  - intros H. apply trim_nil_iff in H.
    unfold analyzeTask_begin. rewrite H. reflexivity.
  - unfold analyze_disabled, analyzeTask_begin. intros H.
    apply orb_false_elim in H as [H _]. apply orb_false_elim in H as [_ H].
    rewrite H. reflexivity.
  - unfold evaluate_offered, evaluatePlan_begin.
    destruct (workerPlan st) as [p | ]; [ | discriminate].
    intros _. exists p. split; reflexivity.
Qed.

Lemma handler_guards_agree_with_buttons_witness :
  analyzeTask_begin (setTaskInput [0x20; 0x9; 0xA0; 0x2003]%N initialState)
  = (setError (Some "Please enter a task description")
       (setTaskInput [0x20; 0x9; 0xA0; 0x2003]%N initialState), false)
  /\ analyzeTask_begin (setTaskInput [0x20; 0x68; 0x69]%N initialState)
     = (setError None
          (setLoadingWorker true
             (setTaskInput [0x20; 0x68; 0x69]%N initialState)), true).
Proof.
  split.
  - apply (proj1 (handler_guards_agree_with_buttons
                    (setTaskInput [0x20; 0x9; 0xA0; 0x2003]%N initialState))).
    reflexivity.
  - apply (proj1 (proj2 (handler_guards_agree_with_buttons
                    (setTaskInput [0x20; 0x68; 0x69]%N initialState)))).
    reflexivity.
Defined.

(** ** Failed calls *)

Lemma or_default_not_empty (m : option string) (d : string) :
  d <> "" -> JSString.or_default m d <> "".
Proof.
  intros Hd. destruct m as [[ | c s] | ]; cbn; try exact Hd. discriminate.
Qed.

(** X12: a failed call never reaches the engine and is never silent.  When
    the awaited call rejects, or resolves without [success] and status
    "success", [evaluatePlan] leaves the step, the plan, the scores and the
    verdict of the page as they were, clears its loading flag and sets a
    non-empty error message, also when the agent's own message is missing or
    empty; [analyzeTask] does the same. *)
Theorem failed_call_changes_only_the_error (st : HomeState) :
  (forall o : Settled SentinelResult, failed o ->
     let st' := evaluatePlan_settle o st in
     st'.(currentStep) = st.(currentStep)
     /\ st'.(workerPlan) = st.(workerPlan)
     /\ st'.(sentinelResult) = st.(sentinelResult)
     /\ st'.(verdict) = st.(verdict)
     /\ st'.(loadingSentinel) = false
     /\ exists msg : string, st'.(error) = Some msg /\ msg <> "")
  /\ (forall o : Settled WorkerResult, failed o ->
        let st' := analyzeTask_settle o st in
        st'.(currentStep) = st.(currentStep)
        /\ st'.(workerPlan) = st.(workerPlan)
        /\ st'.(sentinelResult) = st.(sentinelResult)
        /\ st'.(verdict) = st.(verdict)
        /\ st'.(loadingWorker) = false
        /\ exists msg : string, st'.(error) = Some msg /\ msg <> "").
Proof.
  split; intros [r | ] Hf; cbn in Hf;
    unfold evaluatePlan_settle, analyzeTask_settle; try rewrite Hf; cbn;
    repeat (split; [reflexivity | ]);
    eexists; (split; [reflexivity | ]);
    first [apply or_default_not_empty; discriminate | discriminate].
Qed.

Lemma failed_call_changes_only_the_error_witness :
  error (evaluatePlan_settle
           (Fulfilled
              (mkAgentResult true
                 (mkAgentResponse "error"
                    (Some (mkSentinelResult (Some scenario_missing_context)
                             None))
                    (Some ""))))
           initialState)
  = Some "Failed to evaluate plan"
  /\ error (analyzeTask_settle Rejected initialState)
     = Some "Network error occurred".
Proof.
  split.
  - destruct (proj1 (failed_call_changes_only_the_error initialState)
                (Fulfilled
                   (mkAgentResult true
                      (mkAgentResponse "error"
                         (Some (mkSentinelResult
                                  (Some scenario_missing_context) None))
                         (Some ""))))
                eq_refl) as (_ & _ & _ & _ & _ & msg & Hmsg & _).
    reflexivity.
  - destruct (proj2 (failed_call_changes_only_the_error initialState)
                Rejected I) as (_ & _ & _ & _ & _ & msg & Hmsg & _).
    reflexivity.
Defined.

(** ** Invariants of the page *)

Lemma step_keeps_invariant (st : HomeState) (e : Event) :
  page_invariant st -> page_invariant (step st e).
Proof.
  unfold page_invariant.
  destruct st as [cs ti wp sr vd lw ls er se].
  intros (H3 & Hv & He). cbn in H3, Hv, He.
  assert (Hmsg : forall (m : option string) (d : string),
            d <> "" -> Some (JSString.or_default m d) <> Some "")
    by (intros m d Hd H; injection H as H;
        exact (or_default_not_empty m d Hd H)).
  destruct e as [v | | o | | o | | ]; unfold step.
  - cbn. auto.
  - unfold analyzeTask_begin.
    match goal with |- context [if ?b then _ else _] => destruct b end;
      cbn; repeat split; auto; discriminate.
  - unfold analyzeTask_settle.
    destruct o as [r | ];
      [destruct (succeeded r); [destruct (result (response r)) | ] | ];
      cbn; repeat split; auto; try discriminate.
    apply Hmsg. discriminate.
  - unfold evaluatePlan_begin. cbn [workerPlan].
    destruct wp; cbn; repeat split; auto; discriminate.
  - unfold evaluatePlan_settle.
    destruct o as [r | ];
      [destruct (succeeded r);
       [destruct (result (response r)) as [data | ];
        [destruct (risk_scores data) as [scores | ] | ] | ] | ];
      cbn; repeat split; auto; try discriminate.
    + intros v Hvd. injection Hvd as <-. exists scores. reflexivity.
    + apply Hmsg. discriminate.
  - cbn. repeat split; discriminate.
  - cbn. auto.
Qed.

Lemma step_keeps_typed_invariant (st : HomeState) (e : Event) :
  well_typed e -> typed_page_invariant st -> typed_page_invariant (step st e).
Proof.
  unfold typed_page_invariant, verdict_matches_scores.
  destruct st as [cs ti wp sr vd lw ls er se].
  intros Hty (Hm & H2). cbn in Hm, H2.
  destruct e as [v | | o | | o | | ]; unfold step.
  - cbn. auto.
  - unfold analyzeTask_begin.
    match goal with |- context [if ?b then _ else _] => destruct b end;
      cbn; auto.
  - unfold analyzeTask_settle.
    destruct o as [r | ]; [ | cbn; auto].
    cbn in Hty. destruct (succeeded r); [ | cbn; auto].
    destruct (Hty eq_refl) as (data & p & -> & Hp). rewrite Hp.
    cbn. split; [exact Hm | discriminate].
  - unfold evaluatePlan_begin. cbn [workerPlan].
    destruct wp; cbn; auto.
  - unfold evaluatePlan_settle.
    destruct o as [r | ]; [ | cbn; auto].
    cbn in Hty. destruct (succeeded r); [ | cbn; auto].
    destruct (Hty eq_refl) as (data & scores & -> & Hs). rewrite Hs.
    cbn. rewrite Hs. split; [reflexivity | discriminate].
  - cbn. split; [exact I | discriminate].
  - cbn. auto.
Qed.

Lemma fold_step_keeps_invariant (es : list Event) (st : HomeState) :
  page_invariant st -> page_invariant (fold_left step es st).
Proof.
  revert st. induction es as [ | e es IH]; intros st Hst; cbn.
  - exact Hst.
  - apply IH. apply step_keeps_invariant. exact Hst.
Qed.

Lemma fold_step_keeps_typed_invariant (es : list Event) (st : HomeState) :
  Forall well_typed es ->
  typed_page_invariant st -> typed_page_invariant (fold_left step es st).
Proof.
  revert st. induction es as [ | e es IH]; intros st Hes Hst; cbn.
  - exact Hst.
  - inversion Hes as [ | e' es' He Hrest]; subst.
    apply IH; [exact Hrest | ].
    apply step_keeps_typed_invariant; assumption.
Qed.

(** X13: after any sequence of input changes, clicks, settled calls (in any
    order, with any result, well typed or not), resets and toggles, starting
    from the initial page: step 3 always has a verdict; every verdict on the
    page is the engine's verdict on some scores; and the error is never the
    empty string, so the error banner shows whenever an error is set.  If
    every success carries what its cast promises (a plan, scores), then
    moreover the verdict and the scores of the page are both present or both
    absent, the verdict is the engine's verdict on these scores, and step 2
    always has a plan.  Without that, a success with no plan leads to step 2
    with no plan, and a success with no scores leaves a result on the page
    with no verdict and the error "Network error occurred". *)
Theorem page_invariants (es : list Event) :
  let st := run es in
  (st.(currentStep) = Step3 -> st.(verdict) <> None)
  /\ (forall v : Verdict, st.(verdict) = Some v ->
        exists scores : RiskScores, v = calculateVerdict scores)
  /\ st.(error) <> Some ""
  /\ (Forall well_typed es ->
      match st.(verdict), st.(sentinelResult) with
      | Some v, Some d => d.(risk_scores) <> None
                          /\ forall scores : RiskScores,
                               d.(risk_scores) = Some scores ->
                               v = calculateVerdict scores
      | None, None => True
      | _, _ => False
      end
      /\ (st.(currentStep) = Step2 -> st.(workerPlan) <> None))
  /\ (let st2 := step st (AnalyzeSettled success_without_plan) in
      st2.(currentStep) = Step2 /\ st2.(workerPlan) = None)
  /\ (let st2 := step st (EvaluateSettled success_without_scores) in
      st2.(sentinelResult) = Some (mkSentinelResult None None)
      /\ st2.(verdict) = st.(verdict)
      /\ st2.(currentStep) = st.(currentStep)
      /\ st2.(error) = Some "Network error occurred").
Proof.
  intros st.
  assert (Hinv : page_invariant st).
  { apply (fold_step_keeps_invariant es initialState).
    unfold page_invariant; cbn. repeat split; try discriminate. }
  destruct Hinv as (H3 & Hv & He).
  split; [exact H3 | split; [exact Hv | split; [exact He | split]]].
  - intros Hty.
    assert (Htyp : typed_page_invariant st).
    { apply (fold_step_keeps_typed_invariant es initialState Hty).
      unfold typed_page_invariant, verdict_matches_scores; cbn.
      split; [exact I | discriminate]. }
    destruct Htyp as (Hm & H2). split; [ | exact H2].
    unfold verdict_matches_scores in Hm.
    destruct (verdict st) as [v | ], (sentinelResult st) as [d | ];
      try exact Hm.
    destruct (risk_scores d) as [scores | ]; [ | destruct Hm].
    split; [discriminate | ].
    intros scores' Hs. injection Hs as <-. exact Hm.
  - destruct st; cbn. repeat split.
Qed.

Lemma page_invariants_witness :
  verdict
    (run [AnalyzeSettled
            (Fulfilled
               (mkAgentResult true
                  (mkAgentResponse "success"
                     (Some (mkWorkerResult (Some (mkWorkerPlan [] [] []))))
                     None)));
          EvaluateSettled
            (Fulfilled
               (mkAgentResult true
                  (mkAgentResponse "success"
                     (Some (mkSentinelResult (Some scenario_missing_context)
                              None))
                     None)))])
  = Some (calculateVerdict scenario_missing_context).
Proof.
  pose proof
    (page_invariants
       [AnalyzeSettled
          (Fulfilled
             (mkAgentResult true
                (mkAgentResponse "success"
                   (Some (mkWorkerResult (Some (mkWorkerPlan [] [] []))))
                   None)));
        EvaluateSettled
          (Fulfilled
             (mkAgentResult true
                (mkAgentResponse "success"
                   (Some (mkSentinelResult (Some scenario_missing_context)
                            None))
                   None)))]) as H.
  cbv zeta in H. destruct H as (_ & _ & _ & Htyped & _).
  destruct Htyped as [Hm _].
  - repeat constructor; cbn; intros _; do 2 eexists; split; reflexivity.
  - cbn in Hm. destruct Hm as [_ Hm].
    rewrite <- (Hm scenario_missing_context eq_refl). reflexivity.
Defined.

(** ** Reset does not cancel a call in flight *)

(** X14: [handleReset] clears the page but not the loading flags, and a call
    that settles afterwards is still applied.  If an evaluation succeeds and
    returns scores after Reset was clicked, the page is at step 3 and shows
    the verdict of the returned scores, although it holds no plan and no
    task text. *)
Theorem late_result_survives_reset (st : HomeState)
    (r : AgentResult SentinelResult) (data : SentinelResult)
    (scores : RiskScores) :
  succeeded r = true ->
  r.(response).(result) = Some data ->
  data.(risk_scores) = Some scores ->
  (handleReset st).(loadingWorker) = st.(loadingWorker)
  /\ (handleReset st).(loadingSentinel) = st.(loadingSentinel)
  /\ let st' := evaluatePlan_settle (Fulfilled r) (handleReset st) in
     st'.(currentStep) = Step3
     /\ st'.(verdict) = Some (calculateVerdict scores)
     /\ verdict_shown st' = true
     /\ st'.(workerPlan) = None
     /\ st'.(taskInput) = [].
Proof.
  intros Hr Hdata Hscores. unfold evaluatePlan_settle.
  rewrite Hr, Hdata, Hscores.
  destruct st; cbn. repeat split.
Qed.

Lemma late_result_survives_reset_witness :
  verdict_shown
    (evaluatePlan_settle
       (Fulfilled
          (mkAgentResult true
             (mkAgentResponse "success"
                (Some (mkSentinelResult (Some scenario_missing_context) None))
                None)))
       (handleReset initialState)) = true.
Proof.
  apply (late_result_survives_reset initialState
           (mkAgentResult true
              (mkAgentResponse "success"
                 (Some (mkSentinelResult (Some scenario_missing_context) None))
                 None))
           (mkSentinelResult (Some scenario_missing_context) None)
           scenario_missing_context);
    reflexivity.
Defined.
